(** * RPG Gemini hybrid server ([main_mcp.py]): model and verified properties

    The server is a single Python module: a map scanner, three tools that
    talk to the outside world ([generate_gemini_content], [move_player],
    [get_player_status]) and a handful of HTTP endpoints over two pieces of
    process-wide state (the cached player status and the script queue).

    The embedding follows the source function by function.  Python values
    that travel as JSON are values of [json]; a [dict] whose order matters is
    an association list in insertion order; exceptions are an inductive type
    and a [try]/[except] is a handler over a small error-and-trace monad;
    everything the code asks of its surroundings (environment variables, the
    HTTP libraries, the event loop) is a field of the record [Env]. *)

From Stdlib Require Import String Ascii List ZArith Floats Bool Arith Lia.
Import ListNotations.
Local Open Scope string_scope.
Set Warnings "-register-all".

(** ** Python values *)

Module Py.

(** Values produced by [json.loads] / FastAPI request parsing and accepted
    by [json.dumps].  A Python [float] is a binary64 number. *)
Inductive json : Type :=
| JNull
| JBool (b : bool)
| JInt (n : Z)
| JFloat (f : float)
| JStr (s : string)
| JList (l : list json)
| JDict (d : list (string * json)).

(** A [dict] with string keys, in insertion order. *)
Definition dict (V : Type) : Type := list (string * V).

Section Dict.
Context {V : Type}.

(** [d[k]] / [d.get(k)] *)
Fixpoint dict_get (k : string) (d : dict V) : option V :=
  match d with
  | [] => None
  | (k', v) :: rest => if String.eqb k k' then Some v else dict_get k rest
  end.

(** [k in d] *)
Definition dict_mem (k : string) (d : dict V) : bool :=
  match dict_get k d with Some _ => true | None => false end.

(** [d[k] = v]: an existing key keeps its place, a new key goes last. *)
Fixpoint dict_set (k : string) (v : V) (d : dict V) : dict V :=
  match d with
  | [] => [(k, v)]
  | (k', v') :: rest =>
      if String.eqb k k' then (k', v) :: rest
      else (k', v') :: dict_set k v rest
  end.

(** [d.keys()] *)
Definition dict_keys (d : dict V) : list string := map fst d.
End Dict.

(** Python truthiness, as used by [if not x]. *)
Definition truthy (v : json) : bool :=
  match v with
  | JNull => false
  | JBool b => b
  | JInt n => negb (Z.eqb n 0)
  | JFloat f => negb (PrimFloat.eqb f 0%float)
  | JStr s => negb (String.eqb s EmptyString)
  | JList l => match l with [] => false | _ => true end
  | JDict d => match d with [] => false | _ => true end
  end.

(** [str.lower()] on the ASCII range.  Every destination name is ASCII and
    no character outside ASCII lowers to a letter of one of them, so the
    strings whose lowercase form is a destination name are ASCII strings. *)
Definition lower_ascii (c : ascii) : ascii :=
  let n := nat_of_ascii c in
  if (65 <=? n)%nat && (n <=? 90)%nat then ascii_of_nat (n + 32) else c.

Fixpoint lower (s : string) : string :=
  match s with
  | EmptyString => EmptyString
  | String c rest => String (lower_ascii c) (lower rest)
  end.

(** The double-quote character. *)
Definition dquote : string := String (ascii_of_nat 34) EmptyString.

(** Subscript keys: [v["name"]] and [v[0]]. *)
Inductive key : Type :=
| KStr (s : string)
| KInt (n : Z).

(** Exceptions (subclasses of [Exception]) the code can meet.
    [RequestException] stands for every [requests] exception that is not a
    [Timeout]; [Timeout] is a subclass of it in the library. *)
Inductive exn : Type :=
| JSONDecodeError (msg : string)
| Timeout (msg : string)
| RequestException (msg : string)
| KeyError (k : key)
| IndexError
| TypeError
| RuntimeError (msg : string)
| HTTPException (status_code : Z) (detail : string)
| OtherException (msg : string).

Inductive result (A : Type) : Type :=
| Ok (a : A)
| Raise (e : exn).
Arguments Ok {A} a.
Arguments Raise {A} e.

(** An f-string, piece by piece; [str(e)] and [str(n)] stay symbolic. *)
Inductive piece : Type :=
| Lit (s : string)
| Str_int (n : Z)
| Str_exn (e : exn).

Definition fstring : Type := list piece.

(** A field of a payload handed to [json.dumps]: a JSON value or a
    formatted string. *)
Inductive pyval : Type :=
| VJson (j : json)
| VFmt (f : fstring).

(** What a tool returns: [json.dumps(payload)] or a string taken as is. *)
Inductive tool_output : Type :=
| json_dumps (payload : dict pyval)
| raw_text (s : string).

(** Indexing a sequence with a Python integer; a negative index counts
    from the end. *)
Definition py_index {A : Type} (l : list A) (n : Z) : option A :=
  let i := if (n <? 0)%Z then (Z.of_nat (List.length l) + n)%Z else n in
  if (i <? 0)%Z then None else nth_error l (Z.to_nat i).

(** [v[k]] on a JSON value. *)
Definition subscript (v : json) (k : key) : result json :=
  match v, k with
  | JDict d, KStr s =>
      match dict_get s d with Some x => Ok x | None => Raise (KeyError k) end
  | JDict _, KInt _ => Raise (KeyError k)
  | JList l, KInt n =>
      match py_index l n with Some x => Ok x | None => Raise IndexError end
  | JStr s, KInt n =>
      match py_index (list_ascii_of_string s) n with
      | Some c => Ok (JStr (String c EmptyString))
      | None => Raise IndexError
      end
  | _, _ => Raise TypeError
  end.

(** [len(v)] *)
Definition py_len (v : json) : result Z :=
  match v with
  | JStr s => Ok (Z.of_nat (String.length s))
  | JList l => Ok (Z.of_nat (List.length l))
  | JDict d => Ok (Z.of_nat (List.length d))
  | _ => Raise TypeError
  end.

(** [needle in v] for a string [needle]: key of a dict, element of a list,
    substring of a string. *)
Definition is_str (needle : string) (v : json) : bool :=
  match v with JStr s => String.eqb s needle | _ => false end.

Fixpoint is_substring (needle s : string) : bool :=
  if String.prefix needle s then true
  else match s with
       | EmptyString => false
       | String _ rest => is_substring needle rest
       end.

Definition py_in (needle : string) (v : json) : result bool :=
  match v with
  | JDict d => Ok (dict_mem needle d)
  | JList l => Ok (existsb (is_str needle) l)
  | JStr s => Ok (is_substring needle s)
  | _ => Raise TypeError
  end.

(** *** Effects: a trace of calls made, and exceptions *)

Inductive event : Type :=
| HttpPost (url : string) (body : json)          (* requests.post *)
| HttpGet (url : string)                          (* requests.get *)
| CreateTask (url : string) (body : json)         (* loop.create_task(coro) *)
| SessionPost (url : string) (body : json).       (* aiohttp session.post *)

Definition M (A : Type) : Type := list event -> result A * list event.

Definition ret {A} (a : A) : M A := fun tr => (Ok a, tr).

Definition bind {A B} (m : M A) (f : A -> M B) : M B :=
  fun tr =>
    match m tr with
    | (Ok a, tr') => f a tr'
    | (Raise e, tr') => (Raise e, tr')
    end.

Definition lift {A} (r : result A) : M A := fun tr => (r, tr).

Definition emit (ev : event) : M unit := fun tr => (Ok tt, (tr ++ [ev])%list).

(** [try: m  except Exception as e: handler e] *)
Definition try_except {A} (m : M A) (handler : exn -> M A) : M A :=
  fun tr =>
    match m tr with
    | (Ok a, tr') => (Ok a, tr')
    | (Raise e, tr') => handler e tr'
    end.

End Py.

Export Py.

Declare Scope py_scope.
Delimit Scope py_scope with py.
Notation "x <- m ;; k" := (bind m (fun x => k))
  (at level 61, m at next level, right associativity) : py_scope.
Notation "m ;;; k" := (bind m (fun _ => k))
  (at level 61, right associativity) : py_scope.
Local Open Scope py_scope.

(** ** Map scanner *)

Module MapScanner.

(** The coordinate dict [{"x": x, "y": y}]. *)
Record coord : Type := { x : nat; y : nat }.

Definition coord_json (p : coord) : json :=
  JDict [("x", JInt (Z.of_nat (x p))); ("y", JInt (Z.of_nat (y p)))].

Definition map_layout : list string :=
  [ "####################";
    "#P   1   W   2     #";
    "#                  #";
    "#    B   h   M   C #";
    "#                  #";
    "# 3   4       5    #";
    "#                  #";
    "#                  #";
    "# 5           6    #";
    "####################" ].

(** The [if]/[elif] chain of the loop body. *)
Definition mark (tile : ascii) (p : coord) (destinations : dict coord)
  : dict coord :=
  if Ascii.eqb tile "h" then dict_set "casa" p destinations
  else if Ascii.eqb tile "W" then dict_set "trabalho" p destinations
  else if Ascii.eqb tile "M" then dict_set "mercado" p destinations
  else if Ascii.eqb tile "B" then dict_set "banco" p destinations
  else if Ascii.eqb tile "C" then dict_set "loja_carros" p destinations
  else destinations.

(** [for x, tile in enumerate(row)], from column [col] on. *)
Fixpoint scan_row (row_index col : nat) (row : string)
  (destinations : dict coord) : dict coord :=
  match row with
  | EmptyString => destinations
  | String tile rest =>
      scan_row row_index (S col) rest
        (mark tile {| x := col; y := row_index |} destinations)
  end.

(** [for y, row in enumerate(map_layout)], from row [row_index] on. *)
Fixpoint scan_rows (row_index : nat) (rows : list string)
  (destinations : dict coord) : dict coord :=
  match rows with
  | [] => destinations
  | row :: rest =>
      scan_rows (S row_index) rest (scan_row row_index 0 row destinations)
  end.

(** The body of [detect_map_coordinates] over an arbitrary grid. *)
Definition scan_map (layout : list string) : dict coord :=
  scan_rows 0 layout [].

Definition detect_map_coordinates : dict coord := scan_map map_layout.

(** [get_destinations]: the payload handed to [json.dumps]. *)
Definition get_destinations : tool_output :=
  let destinations := detect_map_coordinates in
  json_dumps
    [ ("destinations",
       VJson (JDict (map (fun kv => (fst kv, coord_json (snd kv)))
                         destinations)));
      ("message",
       VJson (JStr "Coordenadas detectadas automaticamente do mapa")) ].

(** *** Vocabulary for statements about grids *)

(** The table of recognized markers. *)
Definition marker_name (tile : ascii) : option string :=
  if Ascii.eqb tile "h" then Some "casa"
  else if Ascii.eqb tile "W" then Some "trabalho"
  else if Ascii.eqb tile "M" then Some "mercado"
  else if Ascii.eqb tile "B" then Some "banco"
  else if Ascii.eqb tile "C" then Some "loja_carros"
  else None.

(** The character at column [col] of row [row_index]. *)
Definition tile_at (layout : list string) (col row_index : nat)
  : option ascii :=
  match nth_error layout row_index with
  | Some row => String.get col row
  | None => None
  end.

(** [p] comes no later than [q] in row-major order (top to bottom, then
    left to right). *)
Definition row_major_le (p q : coord) : Prop :=
  y p < y q \/ (y p = y q /\ x p <= x q).

(** [p] is an occurrence of [tile] in the grid. *)
Definition occurs (layout : list string) (tile : ascii) (p : coord) : Prop :=
  tile_at layout (x p) (y p) = Some tile.

Definition first_occurrence (layout : list string) (tile : ascii) (p : coord)
  : Prop :=
  occurs layout tile p /\
  forall q, occurs layout tile q -> row_major_le p q.

Definition last_occurrence (layout : list string) (tile : ascii) (p : coord)
  : Prop :=
  occurs layout tile p /\
  forall q, occurs layout tile q -> row_major_le q p.

(** The column of the last [tile] in [row], whose first character stands
    at column [col]. *)
Fixpoint last_in_row (tile : ascii) (row : string) (col : nat) : option nat :=
  match row with
  | EmptyString => None
  | String c rest =>
      match last_in_row tile rest (S col) with
      | Some i => Some i
      | None => if Ascii.eqb c tile then Some col else None
      end
  end.

(** The position of the last [tile] in the rows, the first of which is row
    number [row_index]. *)
Fixpoint last_in_grid (tile : ascii) (rows : list string) (row_index : nat)
  : option coord :=
  match rows with
  | [] => None
  | row :: rest =>
      match last_in_grid tile rest (S row_index) with
      | Some p => Some p
      | None =>
          match last_in_row tile row 0 with
          | Some i => Some {| x := i; y := row_index |}
          | None => None
          end
      end
  end.

End MapScanner.

Export MapScanner.

(** ** The surroundings of the tools *)

Module World.

(** The attributes of a [requests.Response] that the code reads;
    [json_body] is the outcome of [response.json()]. *)
Record Response : Type := {
  ok : bool;
  status_code : Z;
  text : string;
  json_body : result json
}.

(** Everything the tools ask of their surroundings.  One call of a tool
    makes each request at most once, so an outcome per request is enough. *)
Record Env : Type := {
  getenv : string -> option string;                    (* os.getenv *)
  json_loads : string -> result json;                  (* json.loads *)
  requests_post : string -> json -> result Response;   (* requests.post *)
  requests_get : string -> result Response;            (* requests.get *)
  get_event_loop : result unit;          (* asyncio.get_event_loop() *)
  create_task : result unit;             (* loop.create_task(coro) *)
  asyncio_run : result unit;             (* can asyncio.run start the coroutine *)
  session_post : string -> json -> result unit         (* await session.post *)
}.

End World.

Export World.

(** ** Tools *)

Module Tools.

Definition gemini_url (api_key : string) : string :=
  "https://generativelanguage.googleapis.com/v1beta/models/gemini-2.5-flash-preview-05-20:generateContent?key="
  ++ api_key.

Definition execute_js_url : string := "http://127.0.0.1:8080/api/execute-js".

Definition status_live_url : string :=
  "http://127.0.0.1:8080/api/get-player-status-live".

(** [{"error": message, "status_code": code}] *)
Definition error_payload (message : fstring) (code : Z) : dict pyval :=
  [("error", VFmt message); ("status_code", VJson (JInt code))].

(** [not api_key] for the result of [os.getenv]. *)
Definition not_configured (api_key : option string) : bool :=
  match api_key with
  | None => true
  | Some s => String.eqb s EmptyString
  end.

(** ["candidates" in result and len(result["candidates"]) > 0] *)
Definition has_candidates (result : json) : M bool :=
  present <- lift (py_in "candidates" result) ;;
  if present
  then candidates <- lift (subscript result (KStr "candidates")) ;;
       n <- lift (py_len candidates) ;;
       ret (0 <? n)%Z
  else ret false.

(** [result["candidates"][0]["content"]["parts"][0]["text"]] *)
Definition first_text (result : json) : M json :=
  candidates <- lift (subscript result (KStr "candidates")) ;;
  candidate <- lift (subscript candidates (KInt 0)) ;;
  content <- lift (subscript candidate (KStr "content")) ;;
  parts <- lift (subscript content (KStr "parts")) ;;
  part <- lift (subscript parts (KInt 0)) ;;
  lift (subscript part (KStr "text")).

(** The code that follows [result = response.json()]. *)
Definition extract_response (result : json) : M tool_output :=
  found <- has_candidates result ;;
  if found
  then ai_response <- first_text result ;;
       ret (json_dumps [("response", VJson ai_response)])
  else ret (json_dumps
              (error_payload [Lit "Resposta inválida da API Gemini"] 500)).

(** The [except] clauses of [generate_gemini_content], in their order. *)
Definition gemini_handler (e : exn) : M tool_output :=
  match e with
  | JSONDecodeError _ =>
      ret (json_dumps (error_payload [Lit "JSON inválido fornecido"] 400))
  | Timeout _ =>
      ret (json_dumps
             (error_payload [Lit "Timeout na chamada da API Gemini"] 408))
  | RequestException _ =>
      ret (json_dumps
             (error_payload
                [Lit "Erro de conexão com a API Gemini: "; Str_exn e] 500))
  | _ =>
      ret (json_dumps (error_payload [Lit "Erro interno: "; Str_exn e] 500))
  end.

Definition generate_gemini_content (env : Env) (contents_json : string)
  : M tool_output :=
  try_except
    (let api_key := getenv env "GEMINI_API_KEY" in
     if not_configured api_key
     then ret (json_dumps
                 (error_payload
                    [Lit "GEMINI_API_KEY não configurada no arquivo .env"]
                    500))
     else
       contents <- lift (json_loads env contents_json) ;;
       let api_url :=
         gemini_url (match api_key with Some k => k | None => EmptyString end)
       in
       let payload := JDict [("contents", contents)] in
       emit (HttpPost api_url payload) ;;;
       response <- lift (requests_post env api_url payload) ;;
       if negb (ok response)
       then ret (json_dumps
                   (error_payload
                      [Lit "Erro na API Gemini: ";
                       Str_int (status_code response);
                       Lit " - "; Lit (text response)]
                      (status_code response)))
       else
         result <- lift (json_body response) ;;
         extract_response result)
    gemini_handler.

(** The body posted to the frontend:
    [{'script': f'window.mcpMovePlayer("{destination_lower}")'}] *)
Definition move_script (destination_lower : string) : json :=
  JDict [("script",
          JStr ("window.mcpMovePlayer(" ++ dquote ++ destination_lower
                ++ dquote ++ ")"))].

(** The coroutine [trigger_frontend_movement]: its own [try]/[except]
    swallows whatever the post raises. *)
Definition trigger_frontend_movement (env : Env) (destination_lower : string)
  : M unit :=
  try_except
    (emit (SessionPost execute_js_url (move_script destination_lower)) ;;;
     lift (session_post env execute_js_url (move_script destination_lower)))
    (fun _ => ret tt).

(** The block that starts the move on the game page: schedule the
    coroutine on the current event loop, or, when that raises, run it to
    completion with [asyncio.run]; whatever the block raises is dropped by
    [except Exception as js_error: pass]. *)
Definition notify_frontend (env : Env) (destination_lower : string) : M unit :=
  try_except
    (try_except
       (lift (get_event_loop env) ;;;
        emit (CreateTask execute_js_url (move_script destination_lower)) ;;;
        lift (create_task env))
       (fun _ =>
          lift (asyncio_run env) ;;;
          trigger_frontend_movement env destination_lower))
    (fun js_error => ret tt).

(** [destinations[k]] *)
Definition dict_item {V : Type} (k : string) (d : dict V) : result V :=
  match dict_get k d with
  | Some v => Ok v
  | None => Raise (KeyError (KStr k))
  end.

Definition move_player (env : Env) (destination : string) : M tool_output :=
  try_except
    (let destinations := detect_map_coordinates in
     let destination_lower := lower destination in
     if negb (dict_mem destination_lower destinations)
     then ret (json_dumps
                 [("success", VJson (JBool false));
                  ("message",
                   VFmt [Lit "Destino '"; Lit destination;
                         Lit "' não encontrado. Destinos disponíveis: ";
                         Lit (String.concat ", " (dict_keys destinations))])])
     else
       target_position <- lift (dict_item destination_lower destinations) ;;
       notify_frontend env destination_lower ;;;
       ret (json_dumps
              [("success", VJson (JBool true));
               ("message",
                VFmt [Lit "Executando movimento para ";
                      Lit destination_lower; Lit "..."]);
               ("new_position", VJson (coord_json target_position));
               ("frontend_triggered", VJson (JBool true));
               ("player_status",
                VJson (JDict
                         [("destination", JStr destination_lower);
                          ("target_coordinates", coord_json target_position);
                          ("movement_type", JStr "pathfinding");
                          ("status", JStr "moving")]))]))
    (fun e =>
       ret (json_dumps
              [("success", VJson (JBool false));
               ("message", VFmt [Lit "Erro ao mover player: "; Str_exn e])])).

(** [get_player_status] reads the module-level [last_player_status]. *)
Definition get_player_status (env : Env) (last_player_status : json)
  : M tool_output :=
  try_except
    (emit (HttpGet status_live_url) ;;;
     response <- lift (requests_get env status_live_url) ;;
     if (status_code response =? 200)%Z
     then ret (raw_text (text response))
     else ret (json_dumps [("player_status", VJson last_player_status)]))
    (fun e =>
       ret (json_dumps
              [("player_status", VJson last_player_status);
               ("error", VFmt [Str_exn e])])).

(** *** Vocabulary for statements about the generation call *)

(** The first candidate's first text part of a well-shaped response:
    an object whose ["candidates"] is a list, whose head is an object with
    a ["content"] object, whose ["parts"] is a list, whose head is an object
    with a ["text"]. *)
Definition first_candidate_text (result : json) : option json :=
  match result with
  | JDict r =>
      match dict_get "candidates" r with
      | Some (JList (JDict candidate :: _)) =>
          match dict_get "content" candidate with
          | Some (JDict content) =>
              match dict_get "parts" content with
              | Some (JList (JDict part :: _)) => dict_get "text" part
              | _ => None
              end
          | _ => None
          end
      | _ => None
      end
  | _ => None
  end.

(** The HTTP class of a status code: [5] for 500..599. *)
Definition status_class (code : Z) : Z := (code / 100)%Z.

End Tools.

Export Tools.

(** ** Process-wide state and the HTTP endpoints over it *)

Module Server.

(** A queue entry [{"script": script, "timestamp": time.time()}] of
    [js_command_queue], the list that [/api/js-commands] drains.  (The other
    module-level list, [js_commands], is only ever appended to and plays no
    part below.) *)
Record QueuedScript : Type := { script : json; timestamp : float }.

Record State : Type := {
  last_player_status : json;
  js_command_queue : list QueuedScript
}.

(** The module-level initial values. *)
Definition initial_state : State :=
  {| last_player_status :=
       JDict [("stamina", JInt 100);
              ("dinheiro_bolso", JInt 0);
              ("dinheiro_banco", JInt 0);
              ("coordenadas", JDict [("x", JInt 1); ("y", JInt 1)]);
              ("localizacao_atual", JStr "casa");
              ("carros", JInt 0)];
     js_command_queue := [] |}.

(** POST /api/player/update-status *)
Definition update_player_status (request : dict json) (st : State)
  : dict json * State :=
  let st' :=
    if dict_mem "player_status" request
    then match dict_get "player_status" request with
         | Some status =>
             {| last_player_status := status;
                js_command_queue := js_command_queue st |}
         | None => st
         end
    else st
  in
  ([("success", JBool true); ("message", JStr "Status atualizado")], st').

(** GET /api/player/current-status *)
Definition get_current_player_status (st : State) : dict json :=
  [("player_status", last_player_status st)].

(** POST /api/execute-js; [now] is the reading of [time.time()]. *)
Definition execute_js_endpoint (request : dict json) (now : float)
  (st : State) : result (dict json) * State :=
  let script := dict_get "script" request in
  if match script with Some s => truthy s | None => false end
  then
    (Ok [("success", JBool true);
         ("message", JStr "Script adicionado à fila de execução")],
     {| last_player_status := last_player_status st;
        js_command_queue :=
          js_command_queue st ++
          [{| script := match script with Some s => s | None => JNull end;
              timestamp := now |}] |})
  else (Raise (HTTPException 400 "script is required"), st).

(** The test of the list comprehension,
    [current_time - cmd["timestamp"] < 30], on binary64 numbers; comparing
    with the integer 30 is comparing with 30.0. *)
Definition fresh (current_time : float) (cmd : QueuedScript) : bool :=
  PrimFloat.ltb (PrimFloat.sub current_time (timestamp cmd)) 30%float.

(** GET /api/js-commands; [current_time] is the reading of [time.time()].
    The response is [{"commands": commands}]. *)
Definition get_js_commands (current_time : float) (st : State)
  : list QueuedScript * State :=
  let queue := filter (fresh current_time) (js_command_queue st) in
  let commands := queue in
  let queue := @nil QueuedScript in
  (commands,
   {| last_player_status := last_player_status st;
      js_command_queue := queue |}).

End Server.

Export Server.

(** ** Concrete surroundings used in examples *)

Module Scenarios.

(** Nothing configured, nothing reachable, no event loop in this thread. *)
Definition offline_env : Env :=
  {| getenv := fun _ => None;
     json_loads := fun _ => Raise (JSONDecodeError "Expecting value");
     requests_post := fun _ _ => Raise (RequestException "connection refused");
     requests_get := fun _ => Raise (RequestException "connection refused");
     get_event_loop := Raise (RuntimeError "no current event loop");
     create_task := Ok tt;
     asyncio_run := Ok tt;
     session_post := fun _ _ => Raise (OtherException "cannot connect") |}.

(** A credential is configured, the input parses to one user turn and the
    upstream answers [response]. *)
Definition one_turn : json :=
  JList [JDict [("role", JStr "user");
                ("parts", JList [JDict [("text", JStr "oi")]])]].

Definition upstream_env (outcome : result Response) : Env :=
  {| getenv := fun _ => Some "k";
     json_loads := fun _ => Ok one_turn;
     requests_post := fun _ _ => outcome;
     requests_get := fun _ => outcome;
     get_event_loop := Ok tt;
     create_task := Ok tt;
     asyncio_run := Ok tt;
     session_post := fun _ _ => Ok tt |}.

Definition not_found_response : Response :=
  {| ok := false; status_code := 404; text := "Not Found";
     json_body := Raise (JSONDecodeError "Expecting value") |}.

Definition server_error_response : Response :=
  {| ok := false; status_code := 500; text := "Internal Server Error";
     json_body := Raise (JSONDecodeError "Expecting value") |}.

Definition answer_response : Response :=
  {| ok := true; status_code := 200; text := "{...}";
     json_body :=
       Ok (JDict
             [("candidates",
               JList [JDict
                        [("content",
                          JDict [("parts",
                                  JList [JDict [("text", JStr "Bom dia")]])])]])])
  |}.

(** A grid in which the home marker occurs twice. *)
Definition two_homes : list string := ["hh"].

(** A status report as the game page posts it. *)
Definition test_status : json :=
  JDict [("stamina", JInt 999);
         ("localizacao_atual", JStr "teste_js")].

(** A reading of [time.time()]. *)
Definition t0 : float := 1700000000%float.

End Scenarios.

Export Scenarios.

(** ** The remaining tools and the HTTP endpoints that wrap tools *)

Module Frontdoor.


Definition newline : string := String (ascii_of_nat 10) EmptyString.

(** The f-string [js_script] of [pensamento], cut at its two [{texto}]
    fields (a doubled brace of the f-string is one brace here). *)
Definition thought_head : string :=
  String.concat newline
    [ EmptyString;
      "        if (typeof startDialogue === 'function' && typeof playerPosition !== 'undefined') {";
      "            // Cria um objeto temporário para representar o player como personagem";
      "            const playerCharacter = {";
      "                name: 'Você',";
      "                x: playerPosition.x,";
      "                y: playerPosition.y";
      "            };";
      "            ";
      "            // Cria a sequência de diálogo com o pensamento";
      "            const thoughtSequence = [{ text: '💭 " ].

Definition thought_middle : string :=
  String.concat newline
    [ "' }];";
      "            ";
      "            // Inicia o diálogo como um pensamento temporizado";
      "            startDialogue(thoughtSequence, playerCharacter, true, false, []);";
      "            ";
      "            console.log('Pensamento exibido:', '" ].

Definition thought_tail : string :=
  String.concat newline
    [ "');";
      "        } else {";
      "            console.error('Função startDialogue não encontrada ou playerPosition indefinido');";
      "        }";
      "        " ].

Definition pensamento_script (texto : string) : string :=
  thought_head ++ texto ++ thought_middle ++ texto ++ thought_tail.

(** The coroutine [trigger_thought]. *)
Definition trigger_thought (env : Env) (js_script : string) : M unit :=
  try_except
    (emit (SessionPost execute_js_url (JDict [("script", JStr js_script)])) ;;;
     lift (session_post env execute_js_url (JDict [("script", JStr js_script)])))
    (fun _ => ret tt).

(** [pensamento]: here the scheduling block sits directly in the outer
    [try], with no [except] of its own around [asyncio.run]. *)
Definition pensamento (env : Env) (texto : string) : M tool_output :=
  try_except
    (let js_script := pensamento_script texto in
     try_except
       (lift (get_event_loop env) ;;;
        emit (CreateTask execute_js_url (JDict [("script", JStr js_script)])) ;;;
        lift (create_task env))
       (fun _ =>
          lift (asyncio_run env) ;;;
          trigger_thought env js_script) ;;;
     ret (json_dumps
            [("success", VJson (JBool true));
             ("message",
              VFmt [Lit "Pensamento '"; Lit texto;
                    Lit "' exibido com sucesso"]);
             ("texto", VJson (JStr texto))]))
    (fun e =>
       ret (json_dumps
              [("success", VJson (JBool false));
               ("message",
                VFmt [Lit "Erro ao exibir pensamento: "; Str_exn e])])).

(** What an endpoint gets from [json.loads(result)]: the payload again when
    the tool returned [json.dumps(payload)], the parse of the text
    otherwise. *)
Inductive body : Type :=
| Payload (payload : dict pyval)
| Parsed (value : json).

Definition loads_output (env : Env) (result : tool_output) : Py.result body :=
  match result with
  | json_dumps payload => Ok (Payload payload)
  | raw_text s =>
      match json_loads env s with
      | Ok value => Ok (Parsed value)
      | Raise e => Raise e
      end
  end.

(** [request.get(k)] followed by [if not value]. *)
Definition missing (value : option json) : bool :=
  match value with
  | None => true
  | Some v => negb (truthy v)
  end.

(** The Python type name of a JSON value. *)
Definition type_name (v : json) : string :=
  match v with
  | JNull => "NoneType"
  | JBool _ => "bool"
  | JInt _ => "int"
  | JFloat _ => "float"
  | JStr _ => "str"
  | JList _ => "list"
  | JDict _ => "dict"
  end.

(** [move_player] called with whatever the request carried: a value that
    is not a string has no [lower], and the [AttributeError] is taken by the
    outer [except] of [move_player]. *)
Definition move_player_value (env : Env) (destination : json)
  : M tool_output :=
  match destination with
  | JStr s => move_player env s
  | v =>
      ret (json_dumps
             [("success", VJson (JBool false));
              ("message",
               VFmt [Lit "Erro ao mover player: ";
                     Str_exn (OtherException
                                ("'" ++ type_name v
                                 ++ "' object has no attribute 'lower'"))])])
  end.

(** POST /api/player/move *)
Definition move_player_endpoint (env : Env) (request : dict json) : M body :=
  let destination := dict_get "destination" request in
  if missing destination
  then lift (Raise (HTTPException 400 "Destination is required"))
  else
    result <- move_player_value env
                (match destination with Some v => v | None => JNull end) ;;
    lift (loads_output env result).


(** POST /api/gemini/generate; [dumps] is [json.dumps] on JSON values. *)
Definition gemini_endpoint (dumps : json -> string) (env : Env)
  (request : dict json) : M body :=
  let contents := dict_get "contents" request in
  if missing contents
  then lift (Raise (HTTPException 400 "Contents are required"))
  else
    let contents_json :=
      dumps (match contents with Some v => v | None => JNull end) in
    result <- generate_gemini_content env contents_json ;;
    lift (loads_output env result).

(** *** Vocabulary for statements about the generation call *)

(** The payloads [generate_gemini_content] builds, one constructor for each
    [return] of the source. *)
Inductive gemini_payload (env : Env) : dict pyval -> Prop :=
| NoCredential :
    gemini_payload env
      (error_payload [Lit "GEMINI_API_KEY não configurada no arquivo .env"]
         500)
| UpstreamRefused (url : string) (sent : json) (response : Response) :
    requests_post env url sent = Ok response ->
    ok response = false ->
    gemini_payload env
      (error_payload
         [Lit "Erro na API Gemini: "; Str_int (status_code response);
          Lit " - "; Lit (text response)]
         (status_code response))
| Generated (ai_response : json) :
    gemini_payload env [("response", VJson ai_response)]
| NoCandidates :
    gemini_payload env
      (error_payload [Lit "Resposta inválida da API Gemini"] 500)
| InvalidJson :
    gemini_payload env (error_payload [Lit "JSON inválido fornecido"] 400)
| TimedOut :
    gemini_payload env
      (error_payload [Lit "Timeout na chamada da API Gemini"] 408)
| ConnectionFailed (e : exn) :
    gemini_payload env
      (error_payload [Lit "Erro de conexão com a API Gemini: "; Str_exn e]
         500)
| InternalError (e : exn) :
    gemini_payload env
      (error_payload [Lit "Erro interno: "; Str_exn e] 500).

(** *** Vocabulary for statements about calls made *)

(** The events a run added to the trace it started from. *)
Definition is_notification_of (script : json) (ev : event) : Prop :=
  ev = CreateTask execute_js_url script
  \/ ev = SessionPost execute_js_url script.

End Frontdoor.

Export Frontdoor.

(** ** All the endpoints over the process-wide state, as one machine

    Every handler is a coroutine on the one event loop of the FastAPI
    thread, so two handlers interleave only where one of them awaits: a
    handler without an [await] is one step, a handler with its
    [await asyncio.sleep] is two. *)

Module Hub.

(** The JavaScript literals that five endpoints queue.  Nothing below
    depends on their text, so they are parameters. *)
Record Scripts : Type := {
  real_status_js : string;      (* js_command of get_real_player_status *)
  request_status_js : string;   (* js_code of request_player_status *)
  live_status_js : string;      (* js_code of get_live_player_status *)
  test_js : string;             (* test_command of test_javascript *)
  status_live_js : string       (* js_code of get_player_status_live *)
}.

(** [int(f)]: truncation toward zero; not defined on NaN and infinities. *)
Definition py_int (f : float) : result Z :=
  match Prim2SF f with
  | SpecFloat.S754_nan =>
      Raise (OtherException "cannot convert float NaN to integer")
  | SpecFloat.S754_infinity _ =>
      Raise (OtherException "cannot convert float infinity to integer")
  | SpecFloat.S754_zero _ => Ok 0%Z
  | SpecFloat.S754_finite s m e =>
      let magnitude :=
        if (0 <=? e)%Z then Z.shiftl (Zpos m) e else Z.shiftr (Zpos m) (- e)
      in
      Ok (if s then (- magnitude)%Z else magnitude)
  end.

(** An element of the module-level list [js_commands]: a dict with an id,
    or a bare string. *)
Inductive js_command : Type :=
| TaggedCommand (id : fstring) (script : string) (timestamp : float)
| BareScript (script : string).

(** The whole module-level state: [last_player_status] and
    [js_command_queue] (in [core]) and [js_commands]. *)
Record FullState : Type := {
  core : State;
  js_commands : list js_command
}.

Definition with_core (st : FullState) (c : State) : FullState :=
  {| core := c; js_commands := js_commands st |}.

Definition push_js_command (st : FullState) (cmd : js_command) : FullState :=
  {| core := core st; js_commands := js_commands st ++ [cmd] |}.

(** The fixed answer of GET /api/player/real-status. *)
Definition placeholder_status : dict json :=
  [("player_status",
    JDict [("stamina", JInt 100);
           ("dinheiro_bolso", JInt 0);
           ("dinheiro_banco", JInt 0);
           ("coordenadas", JDict [("x", JInt 1); ("y", JInt 1)]);
           ("localizacao_atual", JStr "casa");
           ("carros", JInt 0);
           ("nota", JStr "Solicitando status real via JavaScript...")])].

(** GET /api/player/real-status; the clock is read twice, for the id and
    for the timestamp. *)
Definition get_real_player_status (js : Scripts) (now_id now_ts : float)
  (st : FullState) : result (dict json) * FullState :=
  match py_int (PrimFloat.mul now_id 1000%float) with
  | Ok millis =>
      (Ok placeholder_status,
       push_js_command st
         (TaggedCommand [Lit "real_status_"; Str_int millis]
            (real_status_js js) now_ts))
  | Raise e => (Raise e, st)
  end.

(** GET /api/test-js *)
Definition test_javascript (js : Scripts) (now_id now_ts : float)
  (st : FullState) : result (dict json) * FullState :=
  match py_int (PrimFloat.mul now_id 1000%float) with
  | Ok millis =>
      (Ok [("message",
            JStr "Comando de teste JavaScript adicionado à fila");
           ("check_console",
            JStr "Verifique o console do navegador para logs")],
       push_js_command st
         (TaggedCommand [Lit "test_js_"; Str_int millis] (test_js js) now_ts))
  | Raise e => (Raise e, st)
  end.

(** GET /api/player/request-status, up to its [await asyncio.sleep(1.0)]
    and from there on. *)
Definition request_player_status_begin (js : Scripts) (st : FullState)
  : FullState :=
  push_js_command st (BareScript (request_status_js js)).

Definition request_player_status_end (st : FullState) : dict json :=
  [("status", JStr "success");
   ("message", JStr "Status solicitado com logs detalhados");
   ("player_status", last_player_status (core st))].

(** GET /api/player/live-status, around its [await asyncio.sleep(0.5)]. *)
Definition get_live_player_status_begin (js : Scripts) (st : FullState)
  : FullState :=
  push_js_command st (BareScript (live_status_js js)).

Definition get_live_player_status_end (st : FullState) : dict json :=
  [("status", JStr "success");
   ("player_status", last_player_status (core st))].

(** GET /api/get-player-status-live, around its
    [await asyncio.sleep(1.5)]; the clock is read before and after. *)
Definition get_player_status_live_begin (js : Scripts) (now : float)
  (st : FullState) : FullState :=
  with_core st
    {| last_player_status := last_player_status (core st);
       js_command_queue :=
         js_command_queue (core st) ++
         [{| script := JStr (status_live_js js); timestamp := now |}] |}.

Definition get_player_status_live_end (now : float) (st : FullState)
  : dict json :=
  [("status", JStr "success");
   ("message", JStr "Status capturado em tempo real");
   ("player_status", last_player_status (core st));
   ("timestamp", JFloat now)].

(** One uninterrupted stretch of a request handler: a whole handler, or
    the part of one before or after its [await]. *)
Inductive call : Type :=
| PostUpdateStatus (request : dict json)
| GetCurrentStatus
| PostExecuteJs (request : dict json) (now : float)
| GetJsCommands (now : float)
| GetRealStatus (now_id now_ts : float)
| GetTestJs (now_id now_ts : float)
| RequestStatusBegin
| RequestStatusEnd
| LiveStatusBegin
| LiveStatusEnd
| StatusLiveBegin (now : float)
| StatusLiveEnd (now : float).

Inductive reply : Type :=
| Answer (response : dict json)
| Commands (commands : list QueuedScript)      (* {"commands": commands} *)
| Failure (e : exn)
| Pending.                                     (* suspended at its await *)

Definition answer_of (r : result (dict json)) : reply :=
  match r with
  | Ok response => Answer response
  | Raise e => Failure e
  end.

Definition step (js : Scripts) (c : call) (st : FullState)
  : reply * FullState :=
  match c with
  | PostUpdateStatus request =>
      let (response, c') := update_player_status request (core st) in
      (Answer response, with_core st c')
  | GetCurrentStatus => (Answer (get_current_player_status (core st)), st)
  | PostExecuteJs request now =>
      let (response, c') := execute_js_endpoint request now (core st) in
      (answer_of response, with_core st c')
  | GetJsCommands now =>
      let (commands, c') := get_js_commands now (core st) in
      (Commands commands, with_core st c')
  | GetRealStatus now_id now_ts =>
      let (response, st') := get_real_player_status js now_id now_ts st in
      (answer_of response, st')
  | GetTestJs now_id now_ts =>
      let (response, st') := test_javascript js now_id now_ts st in
      (answer_of response, st')
  | RequestStatusBegin => (Pending, request_player_status_begin js st)
  | RequestStatusEnd => (Answer (request_player_status_end st), st)
  | LiveStatusBegin => (Pending, get_live_player_status_begin js st)
  | LiveStatusEnd => (Answer (get_live_player_status_end st), st)
  | StatusLiveBegin now => (Pending, get_player_status_live_begin js now st)
  | StatusLiveEnd now => (Answer (get_player_status_live_end now st), st)
  end.

(** A sequence of stretches, with the reply of each. *)
Fixpoint run (js : Scripts) (calls : list call) (st : FullState)
  : list (call * reply) * FullState :=
  match calls with
  | [] => ([], st)
  | c :: rest =>
      let (r, st') := step js c st in
      let (log, st'') := run js rest st' in
      ((c, r) :: log, st'')
  end.

(** *** Vocabulary for statements about runs *)

(** The stretches that append to [js_commands]. *)
Definition feeds_js_commands (c : call) : bool :=
  match c with
  | GetRealStatus _ _ | GetTestJs _ _ | RequestStatusBegin | LiveStatusBegin =>
      true
  | _ => false
  end.




(** A status update that carries the key. *)
Definition writes_status (c : call) : bool :=
  match c with
  | PostUpdateStatus request => dict_mem "player_status" request
  | _ => false
  end.

End Hub.

Export Hub.

(** ** Concrete runs used in examples *)

Module HubScenarios.

Definition sample_scripts : Scripts :=
  {| real_status_js := "fetch('/api/player/update-status')";
     request_status_js := "window.sendPlayerStatusToServer()";
     live_status_js := "(function() {})()";
     test_js := "console.log('teste')";
     status_live_js := "captureCurrentStatus()" |}.

(** The state at process start. *)
Definition initial_full_state : FullState :=
  {| core := initial_state; js_commands := [] |}.

(** The same process after three requests for scripts nobody polls. *)
Definition cluttered_state : FullState :=
  {| core := initial_state;
     js_commands :=
       [BareScript "window.sendPlayerStatusToServer()";
        BareScript "(function() {})()";
        BareScript "window.sendPlayerStatusToServer()"] |}.

Definition go_request : dict json := [("script", JStr "go()")].

Definition busy_calls : list call :=
  [ GetRealStatus t0 t0;
    PostExecuteJs go_request t0;
    RequestStatusBegin;
    GetTestJs t0 t0;
    GetJsCommands 1700000001%float;
    RequestStatusEnd;
    LiveStatusBegin;
    GetJsCommands 1700000002%float;
    LiveStatusEnd ].

End HubScenarios.

Export HubScenarios.

(** * Properties *)

(** ** Dictionaries and strings *)

Section DictFacts.
Context {V : Type}.
Implicit Types (d : dict V) (k : string) (v : V).

Lemma dict_mem_true_get k d :
  dict_mem k d = true <-> exists v, dict_get k d = Some v.
Proof.
  unfold dict_mem. destruct (dict_get k d) as [v|].
  - split; [eauto | reflexivity].
  - split; [discriminate | intros [v Hv]; discriminate].
Qed.

Lemma dict_mem_false_get k d : dict_mem k d = false <-> dict_get k d = None.
Proof.
  unfold dict_mem. destruct (dict_get k d); split; congruence.
Qed.

Lemma dict_mem_keys k d : dict_mem k d = true <-> In k (dict_keys d).
Proof.
  unfold dict_mem, dict_keys.
  induction d as [|[k' v'] rest IH]; simpl.
  - split; [discriminate | tauto].
  - destruct (String.eqb_spec k k') as [->|Hne].
    + split; auto.
    + rewrite IH. split; [auto | intros [Heq|Hin]; congruence].
Qed.

Lemma dict_get_set_same k v d : dict_get k (dict_set k v d) = Some v.
Proof.
  induction d as [|[k' v'] rest IH]; simpl.
  - rewrite String.eqb_refl. reflexivity.
  - destruct (String.eqb_spec k k') as [->|Hne]; simpl.
    + rewrite String.eqb_refl. reflexivity.
    + destruct (String.eqb_spec k k'); congruence.
Qed.

Lemma dict_get_set_other k k' v d :
  k <> k' -> dict_get k (dict_set k' v d) = dict_get k d.
Proof.
  intros Hne. induction d as [|[k0 v0] rest IH]; simpl.
  - destruct (String.eqb_spec k k'); congruence.
  - destruct (String.eqb_spec k' k0) as [->|Hne0]; simpl.
    + destruct (String.eqb_spec k k0); congruence.
    + destruct (String.eqb_spec k k0); congruence.
Qed.

Lemma dict_keys_set k v d :
  dict_keys (dict_set k v d) =
  if dict_mem k d then dict_keys d else (dict_keys d ++ [k])%list.
Proof.
  unfold dict_mem, dict_keys.
  induction d as [|[k' v'] rest IH]; simpl; [reflexivity|].
  destruct (String.eqb_spec k k') as [->|Hne]; simpl; [reflexivity|].
  rewrite IH. destruct (dict_get k rest); reflexivity.
Qed.
End DictFacts.

Lemma lower_ascii_idempotent c : lower_ascii (lower_ascii c) = lower_ascii c.
Proof.
  destruct c as [[] [] [] [] [] [] [] []]; reflexivity.
Qed.

Lemma lower_idempotent s : lower (lower s) = lower s.
Proof.
  induction s as [|c rest IH]; simpl; [reflexivity|].
  rewrite lower_ascii_idempotent, IH. reflexivity.
Qed.

(** ** Map scanner on the fixed grid *)

Module MapScannerFacts.

(** C1.  On the fixed grid the scanner returns exactly five entries:
    trabalho at (9,1), banco at (5,3), casa at (9,3), mercado at (13,3) and
    loja_carros at (17,3), no other key; each pair is the column and row of
    the marker in the grid, and [get_destinations] hands the same mapping to
    [json.dumps]. *)
Theorem detect_map_coordinates_exact :
  detect_map_coordinates =
    [ ("trabalho", {| x := 9; y := 1 |});
      ("banco", {| x := 5; y := 3 |});
      ("casa", {| x := 9; y := 3 |});
      ("mercado", {| x := 13; y := 3 |});
      ("loja_carros", {| x := 17; y := 3 |}) ]
  /\ (forall name,
        dict_get name detect_map_coordinates =
          if String.eqb name "casa" then Some {| x := 9; y := 3 |}
          else if String.eqb name "trabalho" then Some {| x := 9; y := 1 |}
          else if String.eqb name "mercado" then Some {| x := 13; y := 3 |}
          else if String.eqb name "banco" then Some {| x := 5; y := 3 |}
          else if String.eqb name "loja_carros"
               then Some {| x := 17; y := 3 |}
          else None)
  /\ (tile_at map_layout 9 3 = Some "h"%char
      /\ tile_at map_layout 9 1 = Some "W"%char
      /\ tile_at map_layout 13 3 = Some "M"%char
      /\ tile_at map_layout 5 3 = Some "B"%char
      /\ tile_at map_layout 17 3 = Some "C"%char)
  /\ get_destinations =
       json_dumps
         [ ("destinations",
            VJson (JDict
              [ ("trabalho", JDict [("x", JInt 9); ("y", JInt 1)]);
                ("banco", JDict [("x", JInt 5); ("y", JInt 3)]);
                ("casa", JDict [("x", JInt 9); ("y", JInt 3)]);
                ("mercado", JDict [("x", JInt 13); ("y", JInt 3)]);
                ("loja_carros", JDict [("x", JInt 17); ("y", JInt 3)]) ]));
           ("message",
            VJson (JStr "Coordenadas detectadas automaticamente do mapa")) ].
Proof.
  assert (Hscan : detect_map_coordinates =
    [ ("trabalho", {| x := 9; y := 1 |});
      ("banco", {| x := 5; y := 3 |});
      ("casa", {| x := 9; y := 3 |});
      ("mercado", {| x := 13; y := 3 |});
      ("loja_carros", {| x := 17; y := 3 |}) ]) by (vm_compute; reflexivity).
  split; [exact Hscan|].
  split.
  - intros name. rewrite Hscan. simpl.
    destruct (String.eqb_spec name "trabalho") as [->|]; [reflexivity|].
    destruct (String.eqb_spec name "banco") as [->|]; [reflexivity|].
    destruct (String.eqb_spec name "casa") as [->|]; [reflexivity|].
    destruct (String.eqb_spec name "mercado") as [->|]; [reflexivity|].
    destruct (String.eqb_spec name "loja_carros") as [->|]; reflexivity.
  - split; [repeat split; reflexivity|].
    unfold get_destinations. rewrite Hscan. reflexivity.
Qed.

End MapScannerFacts.

(** ** Status cache *)

Module StatusCacheFacts.

(** C9.  Posting a body that carries ["player_status": P] and then reading
    the current status returns [{"player_status": P}] for every JSON value
    [P]: the cache is replaced wholesale, the old status plays no part, and
    nothing else in the state moves. *)
Theorem update_then_current_status :
  forall (P : json) (request : dict json) (st : State),
    dict_get "player_status" request = Some P ->
    let st' := snd (update_player_status request st) in
    get_current_player_status st' = [("player_status", P)]
    /\ last_player_status st' = P
    /\ js_command_queue st' = js_command_queue st
    /\ fst (update_player_status request st) =
         [("success", JBool true); ("message", JStr "Status atualizado")].
Proof.
  intros P request st Hget. unfold update_player_status, get_current_player_status.
  assert (Hmem : dict_mem "player_status" request = true)
    by (apply dict_mem_true_get; eauto).
  rewrite Hmem, Hget. simpl. auto.
Qed.

Lemma update_then_current_status_witness :
  get_current_player_status
    (snd (update_player_status [("player_status", test_status)] initial_state))
  = [("player_status", test_status)].
Proof.
  exact (proj1 (update_then_current_status test_status
                  [("player_status", test_status)] initial_state eq_refl)).
Defined.

(** C10.  The reply is always [{"success": true, ...}]; a body without the
    ["player_status"] key leaves the whole state as it was, and a body with
    the key sets the cached status to the value under it. *)
Theorem update_overwrites_iff_key_present :
  forall (request : dict json) (st : State),
    fst (update_player_status request st) =
      [("success", JBool true); ("message", JStr "Status atualizado")]
    /\ (~ In "player_status" (dict_keys request) ->
        snd (update_player_status request st) = st)
    /\ (In "player_status" (dict_keys request) ->
        exists P, dict_get "player_status" request = Some P
                  /\ last_player_status (snd (update_player_status request st))
                     = P).
Proof.
  intros request st. unfold update_player_status. simpl.
  split; [reflexivity|]. split.
  - intros Hnot.
    destruct (dict_mem "player_status" request) eqn:Hmem; [|reflexivity].
    apply dict_mem_keys in Hmem. contradiction.
  - intros Hin. apply dict_mem_keys in Hin. rewrite Hin.
    apply dict_mem_true_get in Hin. destruct Hin as [P HP].
    exists P. rewrite HP. auto.
Qed.

Lemma update_overwrites_iff_key_present_witness :
  snd (update_player_status [("stamina", JInt 1)] initial_state)
  = initial_state.
Proof.
  apply (proj1 (proj2 (update_overwrites_iff_key_present
                         [("stamina", JInt 1)] initial_state))).
  simpl. intros [H|[]]. discriminate H.
Defined.

End StatusCacheFacts.

(** ** Command queue *)

Module CommandQueueFacts.

(** Comparison of binary64 numbers is asymmetric. *)
Lemma float_ltb_asym (a b : float) :
  PrimFloat.ltb a b = true -> PrimFloat.ltb b a = false.
Proof.
  rewrite !FloatAxioms.ltb_spec. unfold SpecFloat.SFltb.
  destruct (Prim2SF a) as [sa|sa| |sa ma ea], (Prim2SF b) as [sb|sb| |sb mb eb];
    simpl; try discriminate; try reflexivity;
    try (destruct sa; simpl; try discriminate; reflexivity);
    try (destruct sb; simpl; try discriminate; reflexivity);
    try (destruct sa, sb; simpl; try discriminate; reflexivity).
  assert (Hm : Pos.compare_cont Eq mb ma = CompOpp (Pos.compare_cont Eq ma mb))
    by (rewrite Pos.compare_cont_antisym; reflexivity).
  destruct sa, sb; simpl; try discriminate; try reflexivity;
    rewrite (Z.compare_antisym ea eb), Hm;
    destruct (ea ?= eb)%Z; simpl; try discriminate; try reflexivity;
    destruct (Pos.compare_cont Eq ma mb); simpl; try discriminate;
    reflexivity.
Qed.

Lemma not_fresh_when_older (current_time : float) (cmd : QueuedScript) :
  PrimFloat.ltb 30%float (PrimFloat.sub current_time (timestamp cmd)) = true ->
  fresh current_time cmd = false.
Proof. unfold fresh. apply float_ltb_asym. Qed.

(** An age of exactly one second is below the limit. *)
Lemma fresh_when_one_second_old (current_time : float) (cmd : QueuedScript) :
  PrimFloat.eqb (PrimFloat.sub current_time (timestamp cmd)) 1%float = true ->
  fresh current_time cmd = true.
Proof.
  unfold fresh. generalize (PrimFloat.sub current_time (timestamp cmd)).
  intros d. rewrite FloatAxioms.eqb_spec, FloatAxioms.ltb_spec.
  unfold SpecFloat.SFeqb, SpecFloat.SFltb.
  replace (Prim2SF 1%float) with (SpecFloat.S754_finite false 4503599627370496 (-52))
    by (vm_compute; reflexivity).
  replace (Prim2SF 30%float) with (SpecFloat.S754_finite false 8444249301319680 (-48))
    by (vm_compute; reflexivity).
  destruct (Prim2SF d) as [s|s| |s m e];
    cbn [SpecFloat.SFcompare]; try (intros H; discriminate H).
  - destruct s; intros H; discriminate H.
  - destruct s; [intros H; discriminate H|].
    destruct (Z.compare_spec e (-52)) as [Heq|Hlt|Hgt];
      try (intros H; discriminate H).
    intros _. subst e. reflexivity.
Qed.

(** C2.  A drain returns exactly the queued entries whose age, computed as
    the code computes it ([current_time - timestamp]), is strictly below 30:
    an entry older than 30 seconds is left out, one that is a second old is
    returned.  The drain leaves the queue empty and the cached status
    untouched, so a drain that follows with no enqueue in between returns
    the empty list, whatever the clock reads. *)
Theorem get_js_commands_drain :
  forall (current_time : float) (st : State),
    let commands := fst (get_js_commands current_time st) in
    let st' := snd (get_js_commands current_time st) in
    commands = filter (fresh current_time) (js_command_queue st)
    /\ (forall cmd,
          In cmd commands <->
          In cmd (js_command_queue st)
          /\ PrimFloat.ltb (PrimFloat.sub current_time (timestamp cmd)) 30%float
             = true)
    /\ (forall cmd,
          PrimFloat.ltb 30%float (PrimFloat.sub current_time (timestamp cmd))
          = true ->
          ~ In cmd commands)
    /\ (forall cmd,
          In cmd (js_command_queue st) ->
          PrimFloat.eqb (PrimFloat.sub current_time (timestamp cmd)) 1%float
          = true ->
          In cmd commands)
    /\ js_command_queue st' = []
    /\ last_player_status st' = last_player_status st
    /\ (forall later, get_js_commands later st' = ([], st')).
Proof.
  intros current_time st. unfold get_js_commands. simpl.
  split; [reflexivity|]. split; [|split; [|split]].
  - intros cmd. rewrite filter_In. unfold fresh. reflexivity.
  - intros cmd Hold Hin. apply filter_In in Hin. destruct Hin as [_ Hfresh].
    rewrite (not_fresh_when_older _ _ Hold) in Hfresh. discriminate.
  - intros cmd Hin Hone. apply filter_In. split; [exact Hin|].
    apply fresh_when_one_second_old. exact Hone.
  - repeat split; reflexivity.
Qed.

(** A script posted at [t0] is returned by a drain one second later. *)
Lemma get_js_commands_drain_witness :
  let st := snd (execute_js_endpoint [("script", JStr "go()")] t0 initial_state) in
  In {| script := JStr "go()"; timestamp := t0 |}
     (fst (get_js_commands 1700000001%float st)).
Proof.
  intros st.
  apply (proj1 (proj2 (proj2 (proj2
           (get_js_commands_drain 1700000001%float st))))).
  - simpl. left. reflexivity.
  - vm_compute. reflexivity.
Defined.

(** The same script is gone from a drain 31 seconds after it was posted,
    and also from one exactly 30 seconds after. *)
Example drain_after_31_seconds :
  let st := snd (execute_js_endpoint [("script", JStr "go()")] t0 initial_state) in
  get_js_commands 1700000031%float st = ([], initial_state)
  /\ get_js_commands 1700000030%float st = ([], initial_state)
  /\ get_js_commands 1700000029.5%float st =
       ([{| script := JStr "go()"; timestamp := t0 |}], initial_state).
Proof. repeat split; vm_compute; reflexivity. Qed.

(** A body without a script is refused and nothing is queued. *)
Example execute_js_requires_script :
  execute_js_endpoint [] t0 initial_state =
    (Raise (HTTPException 400 "script is required"), initial_state).
Proof. reflexivity. Qed.

End CommandQueueFacts.

(** ** Movement requests *)

Module MoveFacts.

(** The notification block always completes normally, whatever the event
    loop and the game page do. *)
Lemma notify_frontend_total (env : Env) (destination_lower : string)
  (tr : list event) :
  exists tr', notify_frontend env destination_lower tr = (Ok tt, tr').
Proof.
  unfold notify_frontend, trigger_frontend_movement, try_except, bind, lift,
    emit, ret.
  destruct (get_event_loop env) as [[]|e1];
    destruct (create_task env) as [[]|e2];
    destruct (asyncio_run env) as [[]|e3];
    destruct (session_post env execute_js_url (move_script destination_lower))
      as [[]|e4];
    eauto.
Qed.

(** The success payload for a destination found at [p]. *)
Lemma move_player_found (env : Env) (destination : string) (p : coord)
  (tr : list event) :
  dict_get (lower destination) detect_map_coordinates = Some p ->
  fst (move_player env destination tr) =
    Ok (json_dumps
          [("success", VJson (JBool true));
           ("message",
            VFmt [Lit "Executando movimento para ";
                  Lit (lower destination); Lit "..."]);
           ("new_position", VJson (coord_json p));
           ("frontend_triggered", VJson (JBool true));
           ("player_status",
            VJson (JDict
                     [("destination", JStr (lower destination));
                      ("target_coordinates", coord_json p);
                      ("movement_type", JStr "pathfinding");
                      ("status", JStr "moving")]))]).
Proof.
  intros Hget. unfold move_player.
  assert (Hmem : dict_mem (lower destination) detect_map_coordinates = true)
    by (apply dict_mem_true_get; eauto).
  unfold try_except at 1. unfold bind at 1.
  rewrite Hmem. cbn [negb]. unfold dict_item. rewrite Hget.
  unfold bind, lift.
  destruct (notify_frontend_total env (lower destination) tr) as [tr' Htr'].
  rewrite Htr'. reflexivity.
Qed.

Lemma destination_names :
  dict_keys detect_map_coordinates =
    ["trabalho"; "banco"; "casa"; "mercado"; "loja_carros"].
Proof. vm_compute. reflexivity. Qed.

Lemma destination_listing :
  String.concat ", " (dict_keys detect_map_coordinates) =
    "trabalho, banco, casa, mercado, loja_carros".
Proof. vm_compute. reflexivity. Qed.

(** C6.  When the lowercase form of the destination is a destination name,
    [move_player] returns a payload with [success = true] and
    [new_position] equal to the scanner's coordinates for it, and it does so
    for every behaviour of the event loop and of the game page: the returned
    string is the same under any two surroundings. *)
Theorem move_player_succeeds_whatever_notification :
  forall (env : Env) (destination : string) (tr : list event),
    In (lower destination) (dict_keys detect_map_coordinates) ->
    exists p payload,
      dict_get (lower destination) detect_map_coordinates = Some p
      /\ fst (move_player env destination tr) = Ok (json_dumps payload)
      /\ dict_get "success" payload = Some (VJson (JBool true))
      /\ dict_get "new_position" payload = Some (VJson (coord_json p))
      /\ dict_get "error" payload = None
      /\ forall env',
           fst (move_player env' destination tr) =
           fst (move_player env destination tr).
Proof.
  intros env destination tr Hin.
  apply dict_mem_keys in Hin. apply dict_mem_true_get in Hin.
  destruct Hin as [p Hp]. exists p. eexists.
  split; [exact Hp|]. split; [apply move_player_found; exact Hp|].
  repeat split.
  intros env'. rewrite !(move_player_found _ _ p) by exact Hp. reflexivity.
Qed.

Lemma move_player_succeeds_whatever_notification_witness :
  exists p payload,
    dict_get (lower "CASA") detect_map_coordinates = Some p
    /\ fst (move_player offline_env "CASA" []) = Ok (json_dumps payload)
    /\ dict_get "success" payload = Some (VJson (JBool true))
    /\ dict_get "new_position" payload = Some (VJson (coord_json p))
    /\ dict_get "error" payload = None
    /\ forall env',
         fst (move_player env' "CASA" []) =
         fst (move_player offline_env "CASA" []).
Proof.
  apply (move_player_succeeds_whatever_notification offline_env "CASA" []).
  rewrite destination_names. simpl. do 2 right. left. reflexivity.
Defined.

(** C7.  [move_player] sees its argument only through its lowercase form
    once that form is a destination name: the call on [destination] and the
    call on [lower destination] return the same string and make the same
    calls. *)
Theorem move_player_case_insensitive :
  forall (env : Env) (destination : string) (tr : list event),
    In (lower destination) (dict_keys detect_map_coordinates) ->
    move_player env destination tr = move_player env (lower destination) tr.
Proof.
  intros env destination tr Hin. apply dict_mem_keys in Hin.
  unfold move_player. rewrite lower_idempotent.
  cbv beta delta [try_except bind] zeta.
  rewrite Hin. reflexivity.
Qed.

Lemma move_player_case_insensitive_witness :
  move_player offline_env "CASA" [] = move_player offline_env "casa" [].
Proof.
  apply (move_player_case_insensitive offline_env "CASA" []).
  rewrite destination_names. simpl. do 2 right. left. reflexivity.
Defined.

(** C8.  When the lowercase form of the destination is not a destination
    name, [move_player] returns [success = false] with a message that quotes
    the argument and lists the five destination names, and it makes no call
    at all: the trace of calls is left as it was. *)
Theorem move_player_unknown_destination :
  forall (env : Env) (destination : string) (tr : list event),
    ~ In (lower destination) (dict_keys detect_map_coordinates) ->
    move_player env destination tr =
      (Ok (json_dumps
             [("success", VJson (JBool false));
              ("message",
               VFmt [Lit "Destino '"; Lit destination;
                     Lit "' não encontrado. Destinos disponíveis: ";
                     Lit "trabalho, banco, casa, mercado, loja_carros"])]),
       tr)
    /\ forall name,
         In name (dict_keys detect_map_coordinates) ->
         is_substring name "trabalho, banco, casa, mercado, loja_carros"
         = true.
Proof.
  intros env destination tr Hnot. split.
  - assert (Hmem : dict_mem (lower destination) detect_map_coordinates = false).
    { destruct (dict_mem (lower destination) detect_map_coordinates) eqn:E;
        [|reflexivity].
      apply dict_mem_keys in E. contradiction. }
    unfold move_player. unfold try_except at 1.
    rewrite Hmem. cbn [negb]. rewrite destination_listing. reflexivity.
  - intros name Hin. rewrite destination_names in Hin. simpl in Hin.
    repeat (destruct Hin as [<-|Hin]; [vm_compute; reflexivity|]).
    contradiction.
Qed.

Lemma move_player_unknown_destination_witness :
  move_player offline_env "nonexistent" [] =
    (Ok (json_dumps
           [("success", VJson (JBool false));
            ("message",
             VFmt [Lit "Destino '"; Lit "nonexistent";
                   Lit "' não encontrado. Destinos disponíveis: ";
                   Lit "trabalho, banco, casa, mercado, loja_carros"])]),
     []).
Proof.
  apply (move_player_unknown_destination offline_env "nonexistent" []).
  rewrite destination_names. simpl.
  intros [H|[H|[H|[H|[H|[]]]]]]; discriminate H.
Defined.

(** Where there is no event loop the coroutine is run at once and its post
    is attempted; where there is one the coroutine is only scheduled. *)
Example move_player_calls :
  snd (move_player offline_env "Mercado" []) =
    [SessionPost execute_js_url (move_script "mercado")]
  /\ snd (move_player (upstream_env (Ok answer_response)) "Mercado" []) =
       [CreateTask execute_js_url (move_script "mercado")].
Proof. split; vm_compute; reflexivity. Qed.

End MoveFacts.

(** ** Status query *)

Module StatusQueryFacts.

(** Not every failed fetch attaches an error description: on a 500 answer
    the payload is the cached status alone, with no ["error"] key. *)
Lemma non_200_response_has_no_error_field :
  get_player_status (upstream_env (Ok server_error_response))
    (last_player_status initial_state) []
  = (Ok (json_dumps
           [("player_status", VJson (last_player_status initial_state))]),
     [HttpGet status_live_url])
  /\ ~ exists payload description,
         fst (get_player_status (upstream_env (Ok server_error_response))
                (last_player_status initial_state) [])
         = Ok (json_dumps payload)
         /\ dict_get "error" payload = Some description.
Proof.
  split; [reflexivity|].
  intros (payload & description & Hrun & Herr).
  cbv in Hrun. injection Hrun as <-. discriminate Herr.
Qed.

(** C4, amended.  One fetch is made.  If it raises (timeout, connection
    error, anything else) the tool returns the cached status together with
    the description of the exception; if it answers with a status other than
    200 the tool returns the cached status alone; if it answers 200 the tool
    returns the body of the answer as it is. *)
Theorem get_player_status_outcomes :
  forall (env : Env) (last : json) (tr : list event),
    (forall e,
       requests_get env status_live_url = Raise e ->
       get_player_status env last tr =
         (Ok (json_dumps [("player_status", VJson last);
                          ("error", VFmt [Str_exn e])]),
          (tr ++ [HttpGet status_live_url])%list))
    /\ (forall response,
          requests_get env status_live_url = Ok response ->
          status_code response <> 200%Z ->
          get_player_status env last tr =
            (Ok (json_dumps [("player_status", VJson last)]),
             (tr ++ [HttpGet status_live_url])%list))
    /\ (forall response,
          requests_get env status_live_url = Ok response ->
          status_code response = 200%Z ->
          get_player_status env last tr =
            (Ok (raw_text (text response)),
             (tr ++ [HttpGet status_live_url])%list)).
Proof.
  intros env last tr.
  unfold get_player_status, try_except, bind, emit, lift, ret.
  repeat split.
  - intros e He. rewrite He. reflexivity.
  - intros response Hresp Hcode. rewrite Hresp.
    destruct (Z.eqb_spec (status_code response) 200); [contradiction|].
    reflexivity.
  - intros response Hresp Hcode. rewrite Hresp, Hcode. reflexivity.
Qed.

Lemma get_player_status_outcomes_witness :
  get_player_status offline_env (last_player_status initial_state) [] =
    (Ok (json_dumps
           [("player_status", VJson (last_player_status initial_state));
            ("error",
             VFmt [Str_exn (RequestException "connection refused")])]),
     [HttpGet status_live_url])
  /\ get_player_status (upstream_env (Ok answer_response)) JNull [] =
       (Ok (raw_text "{...}"), [HttpGet status_live_url]).
Proof.
  split.
  - apply (proj1 (get_player_status_outcomes offline_env
                    (last_player_status initial_state) [])).
    reflexivity.
  - apply (proj2 (proj2 (get_player_status_outcomes
                           (upstream_env (Ok answer_response)) JNull []))
             answer_response); reflexivity.
Defined.

End StatusQueryFacts.

(** ** Upstream generation call *)

Module GenerationFacts.

(** One step of the case analysis on the shape of a JSON value. *)
Ltac shape_step :=
  cbv [ret dict_mem py_len subscript py_index]; cbn;
  repeat match goal with
         | H : dict_get _ _ = _ |- _ => rewrite H
         end;
  first
    [ reflexivity
    | eexists; reflexivity
    | match goal with
      | |- context [dict_get ?k ?d] =>
          is_var d; destruct (dict_get k d) eqn:?
      | |- context [is_substring ?n ?s] => destruct (is_substring n s)
      | |- context [existsb ?f ?l] => destruct (existsb f l)
      | |- context [match ?x with _ => _ end] => is_var x; destruct x
      | |- context [String.length ?s] => is_var s; destruct s
      | |- context [list_ascii_of_string ?s] => is_var s; destruct s
      | |- context [List.length ?l] => is_var l; destruct l
      end ].

(** What the code does with the parsed body of a successful answer: the
    text of the first candidate's first part when the body has that shape,
    and an error payload with status code 500 for every other JSON value. *)
Lemma response_shape (result : json) (tr : list event) :
  match first_candidate_text result with
  | Some ai_response =>
      try_except (extract_response result) gemini_handler tr =
        (Ok (json_dumps [("response", VJson ai_response)]), tr)
  | None =>
      exists message,
        try_except (extract_response result) gemini_handler tr =
          (Ok (json_dumps (error_payload message 500)), tr)
  end.
Proof.
  unfold extract_response, has_candidates, first_text, first_candidate_text,
    try_except, bind, lift, gemini_handler, dict_mem.
  repeat shape_step.
Qed.

(** Not every non-success upstream status comes back as a 500-class
    error: a 404 answer comes back with status code 404, which is in the
    400 class. *)
Lemma upstream_404_is_not_500_class :
  generate_gemini_content (upstream_env (Ok not_found_response)) "[]" [] =
    (Ok (json_dumps
           (error_payload
              [Lit "Erro na API Gemini: "; Str_int 404; Lit " - ";
               Lit "Not Found"]
              404)),
     [HttpPost (gemini_url "k") (JDict [("contents", one_turn)])])
  /\ status_class 404 <> 5%Z.
Proof. split; [reflexivity | vm_compute; discriminate]. Qed.

(** C3, amended.  With no credential the tool returns the configuration
    error (status code 500) and makes no call.  With a credential: input
    that does not parse gives status code 400 and no call; otherwise one
    post is made, and a timeout gives 408, any other transport failure gives
    500 with the description of the failure, an answer that is not [ok]
    gives an error that quotes the upstream status and body and carries the
    upstream status itself as its status code, and an [ok] answer whose body
    is JSON gives the first candidate's first text part, or status code 500
    when the body does not have that shape. *)
Theorem generate_gemini_content_outcomes :
  forall (env : Env) (contents_json : string) (tr : list event),
    (not_configured (getenv env "GEMINI_API_KEY") = true ->
     generate_gemini_content env contents_json tr =
       (Ok (json_dumps
              (error_payload
                 [Lit "GEMINI_API_KEY não configurada no arquivo .env"] 500)),
        tr))
    /\ (forall api_key,
          getenv env "GEMINI_API_KEY" = Some api_key ->
          api_key <> EmptyString ->
          (forall msg,
             json_loads env contents_json = Raise (JSONDecodeError msg) ->
             generate_gemini_content env contents_json tr =
               (Ok (json_dumps
                      (error_payload [Lit "JSON inválido fornecido"] 400)),
                tr))
          /\ (forall contents,
                json_loads env contents_json = Ok contents ->
                let url := gemini_url api_key in
                let body := JDict [("contents", contents)] in
                let tr' := (tr ++ [HttpPost url body])%list in
                (forall msg,
                   requests_post env url body = Raise (Timeout msg) ->
                   generate_gemini_content env contents_json tr =
                     (Ok (json_dumps
                            (error_payload
                               [Lit "Timeout na chamada da API Gemini"] 408)),
                      tr'))
                /\ (forall msg,
                      requests_post env url body
                      = Raise (RequestException msg) ->
                      generate_gemini_content env contents_json tr =
                        (Ok (json_dumps
                               (error_payload
                                  [Lit "Erro de conexão com a API Gemini: ";
                                   Str_exn (RequestException msg)] 500)),
                         tr'))
                /\ (forall response,
                      requests_post env url body = Ok response ->
                      (ok response = false ->
                       generate_gemini_content env contents_json tr =
                         (Ok (json_dumps
                                (error_payload
                                   [Lit "Erro na API Gemini: ";
                                    Str_int (status_code response);
                                    Lit " - "; Lit (text response)]
                                   (status_code response))),
                          tr'))
                      /\ (ok response = true ->
                          forall result,
                            json_body response = Ok result ->
                            match first_candidate_text result with
                            | Some ai_response =>
                                generate_gemini_content env contents_json tr =
                                  (Ok (json_dumps
                                         [("response", VJson ai_response)]),
                                   tr')
                            | None =>
                                exists message,
                                  generate_gemini_content env contents_json tr
                                  = (Ok (json_dumps
                                           (error_payload message 500)),
                                     tr')
                            end)))).
Proof.
  intros env contents_json tr. split.
  - intros Hnot. unfold generate_gemini_content, try_except.
    rewrite Hnot. reflexivity.
  - intros api_key Hkey Hne.
    assert (Hconf : not_configured (getenv env "GEMINI_API_KEY") = false).
    { rewrite Hkey. simpl. destruct (String.eqb_spec api_key EmptyString);
        [contradiction | reflexivity]. }
    split.
    + intros msg Hloads. unfold generate_gemini_content, try_except.
      rewrite Hconf. unfold bind, lift. rewrite Hloads. reflexivity.
    + intros contents Hloads url body tr'. subst url body tr'.
      unfold generate_gemini_content.
      rewrite Hconf, Hkey.
      split; [|split].
      * intros msg Hpost. unfold try_except, bind, lift, emit.
        rewrite Hloads, Hpost. reflexivity.
      * intros msg Hpost. unfold try_except, bind, lift, emit.
        rewrite Hloads, Hpost. reflexivity.
      * intros response Hpost. split.
        -- intros Hok. unfold try_except, bind, lift, emit.
           rewrite Hloads, Hpost, Hok. reflexivity.
        -- intros Hok result Hbody.
           pose proof (response_shape result
                         (tr ++ [HttpPost (gemini_url api_key)
                                   (JDict [("contents", contents)])])%list)
             as Hshape.
           destruct (first_candidate_text result) as [ai_response|].
           ++ rewrite <- Hshape. unfold try_except, bind, lift, emit.
              rewrite Hloads, Hpost, Hok, Hbody. reflexivity.
           ++ destruct Hshape as [message Hmessage]. exists message.
              rewrite <- Hmessage. unfold try_except, bind, lift, emit.
              rewrite Hloads, Hpost, Hok, Hbody. reflexivity.
Qed.

Lemma generate_gemini_content_outcomes_witness :
  generate_gemini_content offline_env "[]" [] =
    (Ok (json_dumps
           (error_payload
              [Lit "GEMINI_API_KEY não configurada no arquivo .env"] 500)),
     [])
  /\ generate_gemini_content (upstream_env (Ok answer_response)) "[]" [] =
       (Ok (json_dumps [("response", VJson (JStr "Bom dia"))]),
        [HttpPost (gemini_url "k") (JDict [("contents", one_turn)])])
  /\ generate_gemini_content (upstream_env (Raise (Timeout "read timed out")))
       "[]" [] =
       (Ok (json_dumps
              (error_payload [Lit "Timeout na chamada da API Gemini"] 408)),
        [HttpPost (gemini_url "k") (JDict [("contents", one_turn)])]).
Proof.
  split; [|split].
  - apply (proj1 (generate_gemini_content_outcomes offline_env "[]" [])).
    reflexivity.
  - pose proof (proj2 (generate_gemini_content_outcomes
                         (upstream_env (Ok answer_response)) "[]" [])
                  "k" eq_refl) as H.
    assert (Hne : "k" <> EmptyString) by discriminate.
    destruct (H Hne) as [_ Hparsed].
    destruct (Hparsed one_turn eq_refl) as (_ & _ & Hresp).
    destruct (Hresp answer_response eq_refl) as [_ Hok].
    exact (Hok eq_refl _ eq_refl).
  - pose proof (proj2 (generate_gemini_content_outcomes
                         (upstream_env (Raise (Timeout "read timed out")))
                         "[]" [])
                  "k" eq_refl) as H.
    assert (Hne : "k" <> EmptyString) by discriminate.
    destruct (H Hne) as [_ Hparsed].
    destruct (Hparsed one_turn eq_refl) as (Htimeout & _).
    exact (Htimeout "read timed out" eq_refl).
Defined.

(** Upstream answers whose body is well-formed JSON of another shape. *)
Example unexpected_shapes :
  let run body :=
    fst (generate_gemini_content
           (upstream_env
              (Ok {| ok := true; status_code := 200; text := EmptyString;
                     json_body := Ok body |})) "[]" [])
  in
  run (JDict [("candidates", JList [])]) =
    Ok (json_dumps
          (error_payload [Lit "Resposta inválida da API Gemini"] 500))
  /\ run (JDict [("error", JStr "quota")]) =
       Ok (json_dumps
             (error_payload [Lit "Resposta inválida da API Gemini"] 500))
  /\ run (JDict [("candidates", JList [JDict [("finishReason", JStr "SAFETY")]])]) =
       Ok (json_dumps
             (error_payload
                [Lit "Erro interno: "; Str_exn (KeyError (KStr "content"))]
                500))
  /\ run (JInt 7) =
       Ok (json_dumps
             (error_payload [Lit "Erro interno: "; Str_exn TypeError] 500)).
Proof. repeat split; reflexivity. Qed.

(** When [response.json()] raises a [JSONDecodeError] on an [ok] answer,
    the first [except] clause takes it. *)
Example body_that_is_not_json :
  fst (generate_gemini_content
         (upstream_env
            (Ok {| ok := true; status_code := 200; text := "<html>";
                   json_body := Raise (JSONDecodeError "Expecting value") |}))
         "[]" [])
  = Ok (json_dumps (error_payload [Lit "JSON inválido fornecido"] 400)).
Proof. reflexivity. Qed.

End GenerationFacts.

(** ** Map scanner on an arbitrary grid *)

Module ScanFacts.

Lemma mark_marker_name (tile : ascii) (p : coord) (d : dict coord) :
  mark tile p d =
    match marker_name tile with
    | Some name => dict_set name p d
    | None => d
    end.
Proof.
  unfold mark, marker_name.
  repeat match goal with
         | |- context [Ascii.eqb ?a ?b] => destruct (Ascii.eqb a b)
         end; reflexivity.
Qed.

Lemma marker_name_injective (t1 t2 : ascii) (name : string) :
  marker_name t1 = Some name -> marker_name t2 = Some name -> t1 = t2.
Proof.
  unfold marker_name.
  repeat match goal with
         | |- context [Ascii.eqb ?a ?b] =>
             destruct (Ascii.eqb_spec a b); subst
         end; congruence.
Qed.

(** One step of the loop body, seen from one destination name. *)
Lemma dict_get_mark (tile tile' : ascii) (name : string) (p : coord)
  (d : dict coord) :
  marker_name tile = Some name ->
  dict_get name (mark tile' p d) =
    if Ascii.eqb tile' tile then Some p else dict_get name d.
Proof.
  intros Hname. rewrite mark_marker_name.
  destruct (Ascii.eqb_spec tile' tile) as [->|Hne].
  - rewrite Hname. apply dict_get_set_same.
  - destruct (marker_name tile') as [name'|] eqn:Hname'; [|reflexivity].
    apply dict_get_set_other. intros ->.
    apply Hne. eapply marker_name_injective; eauto.
Qed.

Lemma scan_row_get (tile : ascii) (name : string) (row : string) :
  marker_name tile = Some name ->
  forall (row_index col : nat) (d : dict coord),
    dict_get name (scan_row row_index col row d) =
      match last_in_row tile row col with
      | Some i => Some {| x := i; y := row_index |}
      | None => dict_get name d
      end.
Proof.
  intros Hname. induction row as [|c rest IH]; intros row_index col d; simpl.
  - reflexivity.
  - rewrite IH. destruct (last_in_row tile rest (S col)); [reflexivity|].
    rewrite (dict_get_mark tile c name) by exact Hname.
    destruct (Ascii.eqb c tile); reflexivity.
Qed.

Lemma scan_rows_get (tile : ascii) (name : string) (rows : list string) :
  marker_name tile = Some name ->
  forall (row_index : nat) (d : dict coord),
    dict_get name (scan_rows row_index rows d) =
      match last_in_grid tile rows row_index with
      | Some p => Some p
      | None => dict_get name d
      end.
Proof.
  intros Hname. induction rows as [|row rest IH]; intros row_index d; simpl.
  - reflexivity.
  - rewrite IH. destruct (last_in_grid tile rest (S row_index)); [reflexivity|].
    rewrite (scan_row_get tile name row Hname).
    destruct (last_in_row tile row 0); reflexivity.
Qed.

Lemma last_in_row_None (tile : ascii) (row : string) :
  forall col,
    last_in_row tile row col = None ->
    forall j, String.get j row <> Some tile.
Proof.
  induction row as [|c rest IH]; intros col Hlast j; simpl in *.
  - discriminate.
  - destruct (last_in_row tile rest (S col)) eqn:Hrest; [discriminate|].
    destruct (Ascii.eqb_spec c tile) as [->|Hne]; [discriminate|].
    destruct j as [|j]; [congruence|].
    exact (IH (S col) Hrest j).
Qed.

Lemma last_in_row_Some (tile : ascii) (row : string) :
  forall col i,
    last_in_row tile row col = Some i ->
    col <= i
    /\ String.get (i - col) row = Some tile
    /\ forall j, String.get j row = Some tile -> col + j <= i.
Proof.
  induction row as [|c rest IH]; intros col i Hlast; simpl in Hlast.
  - discriminate.
  - destruct (last_in_row tile rest (S col)) as [i0|] eqn:Hrest.
    + injection Hlast as ->.
      destruct (IH (S col) i Hrest) as (Hle & Hget & Hmax).
      split; [lia|]. split.
      * replace (i - col) with (S (i - S col)) by lia. exact Hget.
      * intros [|j] Hj; [lia|]. simpl in Hj. specialize (Hmax j Hj). lia.
    + destruct (Ascii.eqb_spec c tile) as [->|Hne]; [|discriminate].
      injection Hlast as <-.
      split; [lia|]. split.
      * rewrite Nat.sub_diag. reflexivity.
      * intros [|j] Hj; [lia|]. simpl in Hj.
        exfalso. exact (last_in_row_None tile rest (S col) Hrest j Hj).
Qed.

Lemma tile_at_cons_0 (row : string) (rest : list string) (col : nat) :
  tile_at (row :: rest) col 0 = String.get col row.
Proof. reflexivity. Qed.

Lemma tile_at_cons_S (row : string) (rest : list string) (col n : nat) :
  tile_at (row :: rest) col (S n) = tile_at rest col n.
Proof. reflexivity. Qed.

Lemma last_in_grid_None (tile : ascii) (rows : list string) :
  forall row_index,
    last_in_grid tile rows row_index = None ->
    forall col n, tile_at rows col n <> Some tile.
Proof.
  induction rows as [|row rest IH]; intros row_index Hlast col n.
  - unfold tile_at. destruct n; discriminate.
  - simpl in Hlast.
    destruct (last_in_grid tile rest (S row_index)) eqn:Hrest; [discriminate|].
    destruct (last_in_row tile row 0) eqn:Hrow; [discriminate|].
    destruct n as [|n].
    + rewrite tile_at_cons_0. exact (last_in_row_None tile row 0 Hrow col).
    + rewrite tile_at_cons_S. exact (IH (S row_index) Hrest col n).
Qed.

Lemma last_in_grid_Some (tile : ascii) (rows : list string) :
  forall row_index p,
    last_in_grid tile rows row_index = Some p ->
    row_index <= y p
    /\ tile_at rows (x p) (y p - row_index) = Some tile
    /\ forall col n,
         tile_at rows col n = Some tile ->
         row_index + n < y p \/ (row_index + n = y p /\ col <= x p).
Proof.
  induction rows as [|row rest IH]; intros row_index p Hlast; simpl in Hlast.
  - discriminate.
  - destruct (last_in_grid tile rest (S row_index)) as [q|] eqn:Hrest.
    + injection Hlast as ->.
      destruct (IH (S row_index) p Hrest) as (Hle & Hget & Hmax).
      split; [lia|]. split.
      * replace (y p - row_index) with (S (y p - S row_index)) by lia.
        rewrite tile_at_cons_S. exact Hget.
      * intros col [|n] Hocc; [left; lia|].
        rewrite tile_at_cons_S in Hocc.
        destruct (Hmax col n Hocc) as [Hlt|[Heq Hcol]]; [left|right]; lia.
    + destruct (last_in_row tile row 0) as [i|] eqn:Hrow; [|discriminate].
      injection Hlast as <-. simpl.
      destruct (last_in_row_Some tile row 0 i Hrow) as (_ & Hget & Hmax).
      rewrite Nat.sub_0_r in Hget.
      split; [lia|]. split.
      * rewrite Nat.sub_diag, tile_at_cons_0. exact Hget.
      * intros col [|n] Hocc.
        -- right. rewrite tile_at_cons_0 in Hocc.
           specialize (Hmax col Hocc). lia.
        -- rewrite tile_at_cons_S in Hocc.
           exfalso. exact (last_in_grid_None tile rest (S row_index) Hrest
                             col n Hocc).
Qed.

(** The scan never holds two entries for one name. *)
Lemma dict_set_NoDup (k : string) (p : coord) (d : dict coord) :
  NoDup (dict_keys d) -> NoDup (dict_keys (dict_set k p d)).
Proof.
  intros Hd. rewrite dict_keys_set.
  destruct (dict_mem k d) eqn:Hmem; [exact Hd|].
  apply NoDup_app; [exact Hd | repeat constructor; intros [] |].
  intros k' Hin [<-|[]].
  apply dict_mem_keys in Hin. congruence.
Qed.

Lemma mark_NoDup (tile : ascii) (p : coord) (d : dict coord) :
  NoDup (dict_keys d) -> NoDup (dict_keys (mark tile p d)).
Proof.
  intros Hd. rewrite mark_marker_name.
  destruct (marker_name tile); [apply dict_set_NoDup|]; exact Hd.
Qed.

Lemma scan_row_NoDup (row : string) :
  forall row_index col d,
    NoDup (dict_keys d) ->
    NoDup (dict_keys (scan_row row_index col row d)).
Proof.
  induction row as [|c rest IH]; intros row_index col d Hd; simpl;
    [exact Hd|].
  apply IH, mark_NoDup, Hd.
Qed.

Lemma scan_rows_NoDup (rows : list string) :
  forall row_index d,
    NoDup (dict_keys d) ->
    NoDup (dict_keys (scan_rows row_index rows d)).
Proof.
  induction rows as [|row rest IH]; intros row_index d Hd; simpl;
    [exact Hd|].
  apply IH, scan_row_NoDup, Hd.
Qed.

Lemma row_major_le_antisym (p q : coord) :
  row_major_le p q -> row_major_le q p -> p = q.
Proof.
  destruct p as [px py], q as [qx qy]. unfold row_major_le. simpl.
  intros H1 H2. assert (px = qx /\ py = qy) as [-> ->] by lia. reflexivity.
Qed.

(** The first occurrence does not win: in a grid with two home markers,
    at (0,0) and at (1,0), the first occurrence in row-major order is (0,0)
    and the scan returns (1,0). *)
Lemma first_occurrence_does_not_win :
  first_occurrence two_homes "h" {| x := 0; y := 0 |}
  /\ occurs two_homes "h" {| x := 1; y := 0 |}
  /\ dict_get "casa" (scan_map two_homes) = Some {| x := 1; y := 0 |}
  /\ dict_get "casa" (scan_map two_homes) <> Some {| x := 0; y := 0 |}.
Proof.
  split; [|split; [|split]].
  - split; [reflexivity|].
    intros q _. unfold row_major_le. simpl. lia.
  - reflexivity.
  - reflexivity.
  - discriminate.
Qed.

(** C5, amended.  For every grid and every recognized marker, the scan maps
    the marker's name to the position of the marker's last occurrence in
    row-major order (top to bottom, left to right): a later occurrence
    overwrites an earlier one.  A marker that does not occur leaves its name
    out, and the result never holds two entries for one name. *)
Theorem scan_map_last_occurrence_wins :
  forall (layout : list string) (tile : ascii) (name : string),
    marker_name tile = Some name ->
    (forall p,
       dict_get name (scan_map layout) = Some p <->
       last_occurrence layout tile p)
    /\ (dict_get name (scan_map layout) = None <->
        forall p, ~ occurs layout tile p)
    /\ NoDup (dict_keys (scan_map layout)).
Proof.
  intros layout tile name Hname.
  assert (Hget : dict_get name (scan_map layout) = last_in_grid tile layout 0).
  { unfold scan_map. rewrite (scan_rows_get tile name layout Hname).
    destruct (last_in_grid tile layout 0); reflexivity. }
  assert (Hlast : forall p,
             last_in_grid tile layout 0 = Some p -> last_occurrence layout tile p).
  { intros p Hp.
    destruct (last_in_grid_Some tile layout 0 p Hp) as (_ & Hocc & Hmax).
    rewrite Nat.sub_0_r in Hocc.
    split; [exact Hocc|].
    intros q Hq. unfold row_major_le. exact (Hmax (x q) (y q) Hq). }
  split; [|split].
  - intros p. rewrite Hget. split; [apply Hlast|].
    intros [Hocc Hmax].
    destruct (last_in_grid tile layout 0) as [q|] eqn:Hq.
    + destruct (Hlast q eq_refl) as [Hocc' Hmax'].
      f_equal. apply row_major_le_antisym; auto.
    + exfalso.
      exact (last_in_grid_None tile layout 0 Hq (x p) (y p) Hocc).
  - rewrite Hget. split.
    + intros Hnone p. exact (last_in_grid_None tile layout 0 Hnone (x p) (y p)).
    + intros Habsent.
      destruct (last_in_grid tile layout 0) as [q|] eqn:Hq; [|reflexivity].
      exfalso. exact (Habsent q (proj1 (Hlast q eq_refl))).
  - unfold scan_map. apply scan_rows_NoDup. constructor.
Qed.

Lemma scan_map_last_occurrence_wins_witness :
  dict_get "casa" (scan_map two_homes) = Some {| x := 1; y := 0 |}
  <-> last_occurrence two_homes "h" {| x := 1; y := 0 |}.
Proof.
  apply (proj1 (scan_map_last_occurrence_wins two_homes "h" "casa" eq_refl)).
Defined.

End ScanFacts.

(** ** Runs of the endpoint machine *)

Module HubFacts.

Lemma run_app (js : Scripts) (calls1 calls2 : list call) (st : FullState) :
  run js (calls1 ++ calls2) st =
    ((fst (run js calls1 st)
      ++ fst (run js calls2 (snd (run js calls1 st))))%list,
     snd (run js calls2 (snd (run js calls1 st)))).
Proof.
  revert st. induction calls1 as [|c rest IH]; intros st; simpl.
  - destruct (run js calls2 st); reflexivity.
  - destruct (step js c st) as [r st1]. rewrite IH.
    destruct (run js rest st1) as [log1 st2]. simpl.
    reflexivity.
Qed.

Lemma run_cons (js : Scripts) (c : call) (rest : list call) (st : FullState) :
  run js (c :: rest) st =
    ((c, fst (step js c st)) :: fst (run js rest (snd (step js c st))),
     snd (run js rest (snd (step js c st)))).
Proof.
  simpl. destruct (step js c st) as [r st1]. simpl.
  destruct (run js rest st1); reflexivity.
Qed.

Lemma execute_js_missing (request : dict json) (now : float) (c : State) :
  missing (dict_get "script" request) = true ->
  execute_js_endpoint request now c =
    (Raise (HTTPException 400 "script is required"), c).
Proof.
  unfold execute_js_endpoint, missing.
  destruct (dict_get "script" request) as [s|]; [|reflexivity].
  destruct (truthy s); [discriminate | reflexivity].
Qed.

Lemma execute_js_present (request : dict json) (now : float) (c : State) :
  missing (dict_get "script" request) = false ->
  exists s,
    dict_get "script" request = Some s
    /\ execute_js_endpoint request now c =
         (Ok [("success", JBool true);
              ("message", JStr "Script adicionado à fila de execução")],
          {| last_player_status := last_player_status c;
             js_command_queue :=
               js_command_queue c ++ [{| script := s; timestamp := now |}] |}).
Proof.
  unfold execute_js_endpoint, missing.
  destruct (dict_get "script" request) as [s|]; [|discriminate].
  destruct (truthy s); [|discriminate].
  intros _. exists s. split; reflexivity.
Qed.


(** A stretch that does not touch [js_commands] sees only the core of the
    state. *)
Lemma step_sees_core_only (js : Scripts) (c : call) (st1 st2 : FullState) :
  core st1 = core st2 ->
  feeds_js_commands c = false ->
  fst (step js c st1) = fst (step js c st2)
  /\ core (snd (step js c st1)) = core (snd (step js c st2)).
Proof.
  intros Hcore Hfeeds.
  destruct c; try discriminate Hfeeds; simpl; rewrite ?Hcore;
    try (split; reflexivity).
  - destruct (execute_js_endpoint request now (core st2)); split; reflexivity.
  - unfold request_player_status_end. rewrite Hcore. split; [reflexivity|auto].
  - unfold get_live_player_status_end. rewrite Hcore. split; [reflexivity|auto].
  - unfold get_player_status_live_end. rewrite Hcore. split; [reflexivity|auto].
Qed.

Lemma step_feeding_keeps_core (js : Scripts) (c : call) (st : FullState) :
  feeds_js_commands c = true -> core (snd (step js c st)) = core st.
Proof.
  destruct c; try discriminate; intros _; simpl; try reflexivity.
  - unfold get_real_player_status.
    destruct (py_int (PrimFloat.mul now_id 1000)); reflexivity.
  - unfold test_javascript.
    destruct (py_int (PrimFloat.mul now_id 1000)); reflexivity.
Qed.

Lemma step_js_commands_grow (js : Scripts) (c : call) (st : FullState) :
  exists added,
    js_commands (snd (step js c st)) = (js_commands st ++ added)%list.
Proof.
  destruct c; simpl;
    try (exists []; rewrite app_nil_r; reflexivity);
    try (eexists; reflexivity).
  - destruct (execute_js_endpoint request now (core st)).
    exists []. rewrite app_nil_r. reflexivity.
  - unfold get_real_player_status.
    destruct (py_int (PrimFloat.mul now_id 1000)); simpl;
      [eexists; reflexivity | exists []; rewrite app_nil_r; reflexivity].
  - unfold test_javascript.
    destruct (py_int (PrimFloat.mul now_id 1000)); simpl;
      [eexists; reflexivity | exists []; rewrite app_nil_r; reflexivity].
Qed.


(** X2.  [js_commands] is written and never read.  Take two states that
    differ at most in [js_commands], run any sequence of requests from the
    first and the same sequence without the stretches that append to
    [js_commands] from the second: status and queue end up the same, every
    other request gets the same reply, and [js_commands] has only grown at
    its end. *)
Theorem js_commands_is_never_read :
  forall (js : Scripts) (calls : list call) (st1 st2 : FullState),
    core st1 = core st2 ->
    let others := filter (fun c => negb (feeds_js_commands c)) calls in
    core (snd (run js calls st1)) = core (snd (run js others st2))
    /\ filter (fun cr => negb (feeds_js_commands (fst cr)))
         (fst (run js calls st1))
       = fst (run js others st2)
    /\ exists added,
         js_commands (snd (run js calls st1))
         = (js_commands st1 ++ added)%list.
Proof.
  intros js calls. induction calls as [|c rest IH]; intros st1 st2 Hcore.
  - simpl. repeat split; [exact Hcore|]. exists []. rewrite app_nil_r.
    reflexivity.
  - rewrite run_cons.
    destruct (step_js_commands_grow js c st1) as [added1 Hadded1].
    cbn [filter fst snd]. destruct (feeds_js_commands c) eqn:Hfeeds; cbn [negb].
    + assert (Hcore' : core (snd (step js c st1)) = core st2)
        by (rewrite step_feeding_keeps_core; assumption).
      destruct (IH _ _ Hcore') as (H1 & H2 & added & H3).
      repeat split; [exact H1 | exact H2 |].
      exists (added1 ++ added)%list.
      rewrite H3, Hadded1, app_assoc. reflexivity.
    + destruct (step_sees_core_only js c st1 st2 Hcore Hfeeds)
        as [Hreply Hcore'].
      destruct (IH _ _ Hcore') as (H1 & H2 & added & H3).
      rewrite run_cons. cbn [fst snd].
      repeat split; [exact H1 | rewrite Hreply, H2; reflexivity |].
      exists (added1 ++ added)%list.
      rewrite H3, Hadded1, app_assoc. reflexivity.
Qed.

Lemma js_commands_is_never_read_witness :
  core (snd (run sample_scripts busy_calls cluttered_state))
  = core (snd (run sample_scripts
                 [PostExecuteJs go_request t0;
                  GetJsCommands 1700000001%float;
                  RequestStatusEnd;
                  GetJsCommands 1700000002%float;
                  LiveStatusEnd]
                 initial_full_state)).
Proof.
  exact (proj1 (js_commands_is_never_read sample_scripts busy_calls
                  cluttered_state initial_full_state eq_refl)).
Defined.

Lemma step_keeps_status (js : Scripts) (c : call) (st : FullState) :
  writes_status c = false ->
  last_player_status (core (snd (step js c st)))
  = last_player_status (core st).
Proof.
  destruct c; simpl; intros Hw; try reflexivity.
  - unfold update_player_status. rewrite Hw. reflexivity.
  - destruct (missing (dict_get "script" request)) eqn:Hmiss.
    + rewrite (execute_js_missing _ _ _ Hmiss). reflexivity.
    + destruct (execute_js_present request now (core st) Hmiss)
        as (s & _ & ->).
      reflexivity.
  - unfold get_real_player_status.
    destruct (py_int (PrimFloat.mul now_id 1000)); reflexivity.
  - unfold test_javascript.
    destruct (py_int (PrimFloat.mul now_id 1000)); reflexivity.
Qed.

Lemma run_keeps_status (js : Scripts) (calls : list call) :
  Forall (fun c => writes_status c = false) calls ->
  forall st,
    last_player_status (core (snd (run js calls st)))
    = last_player_status (core st)
    /\ forall r,
         In (GetCurrentStatus, r) (fst (run js calls st)) ->
         r = Answer [("player_status", last_player_status (core st))].
Proof.
  induction 1 as [|c rest Hc Hrest IH]; intros st.
  - simpl. split; [reflexivity | intros r []].
  - rewrite run_cons. cbn [fst snd].
    destruct (IH (snd (step js c st))) as [Hlast Hreads].
    rewrite (step_keeps_status js c st Hc) in Hlast, Hreads.
    split; [exact Hlast|].
    intros r [Heq|Hin]; [|exact (Hreads r Hin)].
    injection Heq as Hcall Hreply. subst c. simpl in Hreply.
    symmetry. exact Hreply.
Qed.

(** X3.  The last writer wins.  After a status update that carries
    ["player_status": P], and as long as no later update carries the key,
    the cached status is [P] whatever else is requested in between, and
    every read of the current status answers [P]. *)
Theorem last_status_writer_wins :
  forall (js : Scripts) (before after : list call) (request : dict json)
         (P : json) (st : FullState),
    dict_get "player_status" request = Some P ->
    Forall (fun c => writes_status c = false) after ->
    let st_written :=
      snd (run js (before ++ [PostUpdateStatus request]) st) in
    snd (run js (before ++ PostUpdateStatus request :: after) st)
    = snd (run js after st_written)
    /\ last_player_status (core (snd (run js after st_written))) = P
    /\ forall r,
         In (GetCurrentStatus, r) (fst (run js after st_written)) ->
         r = Answer [("player_status", P)].
Proof.
  intros js before after request P st Hget Hafter st_written.
  assert (Hwritten : last_player_status (core st_written) = P).
  { unfold st_written. rewrite run_app. cbn [snd run step].
    unfold update_player_status.
    assert (Hmem : dict_mem "player_status" request = true)
      by (apply dict_mem_true_get; eauto).
    rewrite Hmem, Hget. reflexivity. }
  split.
  - unfold st_written.
    replace (before ++ PostUpdateStatus request :: after)%list
      with ((before ++ [PostUpdateStatus request]) ++ after)%list
      by (rewrite <- app_assoc; reflexivity).
    rewrite (run_app js (before ++ [PostUpdateStatus request])). reflexivity.
  - destruct (run_keeps_status js after Hafter st_written) as [Hlast Hreads].
    rewrite Hwritten in Hlast, Hreads. split; assumption.
Qed.

Lemma last_status_writer_wins_witness :
  last_player_status
    (core (snd (run sample_scripts
                  [GetJsCommands t0; PostExecuteJs go_request t0; GetCurrentStatus]
                  (snd (run sample_scripts
                          ([PostUpdateStatus [("player_status", JInt 1)]]
                           ++ [PostUpdateStatus [("player_status", test_status)]])
                          initial_full_state)))))
  = test_status.
Proof.
  refine (proj1 (proj2 (last_status_writer_wins sample_scripts
                          [PostUpdateStatus [("player_status", JInt 1)]]
                          [GetJsCommands t0; PostExecuteJs go_request t0;
                           GetCurrentStatus]
                          [("player_status", test_status)] test_status
                          initial_full_state eq_refl _))).
  repeat constructor.
Defined.

(** X4.  The live-status exchange.  The handler queues its capture script
    and sleeps; if in the meantime the page polls while the script is less
    than 30 seconds old and posts its status [P], the poll hands the script
    out after the older ones, and the handler answers [P] on waking up.  If
    nothing happens in the meantime, the handler answers the status as
    cached before. *)
Theorem live_status_exchange :
  forall (js : Scripts) (t_begin t_poll t_end : float) (P : json)
         (st : FullState),
    let capture :=
      {| script := JStr (status_live_js js); timestamp := t_begin |} in
    (fresh t_poll capture = true ->
     map snd
       (fst (run js
               [StatusLiveBegin t_begin;
                GetJsCommands t_poll;
                PostUpdateStatus [("player_status", P)];
                StatusLiveEnd t_end] st))
     = [Pending;
        Commands (filter (fresh t_poll) (js_command_queue (core st))
                  ++ [capture]);
        Answer [("success", JBool true); ("message", JStr "Status atualizado")];
        Answer [("status", JStr "success");
                ("message", JStr "Status capturado em tempo real");
                ("player_status", P);
                ("timestamp", JFloat t_end)]])
    /\ map snd (fst (run js [StatusLiveBegin t_begin; StatusLiveEnd t_end] st))
       = [Pending;
          Answer [("status", JStr "success");
                  ("message", JStr "Status capturado em tempo real");
                  ("player_status", last_player_status (core st));
                  ("timestamp", JFloat t_end)]].
Proof.
  intros js t_begin t_poll t_end P st capture. split.
  - intros Hfresh. cbn [run step map fst snd].
    unfold get_js_commands, get_player_status_live_begin. cbn [core with_core
      js_command_queue last_player_status fst snd map].
    rewrite filter_app. cbn [filter]. fold capture. rewrite Hfresh.
    reflexivity.
  - reflexivity.
Qed.

Lemma live_status_exchange_witness :
  map snd
    (fst (run sample_scripts
            [StatusLiveBegin t0;
             GetJsCommands 1700000001%float;
             PostUpdateStatus [("player_status", test_status)];
             StatusLiveEnd 1700000001.5%float] initial_full_state))
  = [Pending;
     Commands [{| script := JStr "captureCurrentStatus()"; timestamp := t0 |}];
     Answer [("success", JBool true); ("message", JStr "Status atualizado")];
     Answer [("status", JStr "success");
             ("message", JStr "Status capturado em tempo real");
             ("player_status", test_status);
             ("timestamp", JFloat 1700000001.5%float)]].
Proof.
  apply (proj1 (live_status_exchange sample_scripts t0 1700000001%float
                  1700000001.5%float test_status initial_full_state)).
  vm_compute. reflexivity.
Defined.

End HubFacts.

(** ** Which names a scan returns *)

Module ScanKeysFacts.

Lemma mark_keys (tile : ascii) (p : coord) (d : dict coord) (name : string) :
  In name (dict_keys (mark tile p d)) ->
  In name (dict_keys d) \/ marker_name tile = Some name.
Proof.
  rewrite ScanFacts.mark_marker_name.
  destruct (marker_name tile) as [name'|]; [|auto].
  rewrite dict_keys_set. destruct (dict_mem name' d); [auto|].
  intros Hin. apply in_app_or in Hin.
  destruct Hin as [Hin|[<-|[]]]; auto.
Qed.

Lemma scan_row_keys (name : string) (row : string) :
  forall row_index col d,
    In name (dict_keys (scan_row row_index col row d)) ->
    In name (dict_keys d)
    \/ exists tile j, marker_name tile = Some name
                      /\ String.get j row = Some tile.
Proof.
  induction row as [|c rest IH]; intros row_index col d Hin; simpl in Hin.
  - auto.
  - destruct (IH _ _ _ Hin) as [Hd|(tile & j & Hname & Hget)].
    + destruct (mark_keys _ _ _ _ Hd) as [Hd'|Hc]; [auto|].
      right. exists c, 0. split; [exact Hc | reflexivity].
    + right. exists tile, (S j). split; [exact Hname | exact Hget].
Qed.

Lemma scan_rows_keys (name : string) (rows : list string) :
  forall row_index d,
    In name (dict_keys (scan_rows row_index rows d)) ->
    In name (dict_keys d)
    \/ exists tile col n, marker_name tile = Some name
                          /\ tile_at rows col n = Some tile.
Proof.
  induction rows as [|row rest IH]; intros row_index d Hin; simpl in Hin.
  - auto.
  - destruct (IH _ _ Hin) as [Hd|(tile & col & n & Hname & Hget)].
    + destruct (scan_row_keys _ _ _ _ _ Hd) as [Hd'|(tile & j & Hname & Hget)];
        [auto|].
      right. exists tile, j, 0. split; [exact Hname | exact Hget].
    + right. exists tile, col, (S n). split; [exact Hname | exact Hget].
Qed.

(** X5.  For every grid, the names in the scan's result are exactly the
    names of the recognized markers that occur somewhere in the grid:
    other characters add nothing, and a marker that is present is never
    left out. *)
Theorem scan_keys_are_the_markers_present :
  forall (layout : list string) (name : string),
    In name (dict_keys (scan_map layout)) <->
    exists tile p, marker_name tile = Some name /\ occurs layout tile p.
Proof.
  intros layout name. split.
  - intros Hin. unfold scan_map in Hin.
    destruct (scan_rows_keys name layout 0 [] Hin)
      as [[]|(tile & col & n & Hname & Hget)].
    exists tile, {| x := col; y := n |}. split; [exact Hname | exact Hget].
  - intros (tile & p & Hname & Hocc).
    apply dict_mem_keys. unfold dict_mem, scan_map.
    rewrite (ScanFacts.scan_rows_get tile name layout Hname).
    destruct (last_in_grid tile layout 0) eqn:Hlast; [reflexivity|].
    exfalso.
    exact (ScanFacts.last_in_grid_None tile layout 0 Hlast (x p) (y p) Hocc).
Qed.

End ScanKeysFacts.

(** ** Movement requests: calls made, and the HTTP wrapper *)

Module MoveCallsFacts.

(** The calls the notification block makes, by the behaviour of the event
    loop. *)
Lemma notify_frontend_trace (env : Env) (destination_lower : string)
  (tr : list event) :
  exists scheduled posted : bool,
    notify_frontend env destination_lower tr =
      (Ok tt,
       (tr
        ++ (if scheduled
            then [CreateTask execute_js_url (move_script destination_lower)]
            else [])
        ++ (if posted
            then [SessionPost execute_js_url (move_script destination_lower)]
            else []))%list)
    /\ (posted = true ->
        get_event_loop env <> Ok tt \/ create_task env <> Ok tt).
Proof.
  unfold notify_frontend, trigger_frontend_movement, try_except, bind, lift,
    emit, ret.
  destruct (get_event_loop env) as [[]|e1];
    destruct (create_task env) as [[]|e2];
    destruct (asyncio_run env) as [[]|e3];
    destruct (session_post env execute_js_url (move_script destination_lower))
      as [[]|e4];
    cbn [fst snd].
  all: try (exists true, false; rewrite ?app_nil_r;
            split; [reflexivity | discriminate]).
  all: try (exists true, true; rewrite <- ?app_assoc;
            split; [reflexivity | intros _; right; discriminate]).
  all: try (exists false, true; cbn [app];
            split; [reflexivity | intros _; left; discriminate]).
  all: try (exists false, false; cbn [app]; rewrite ?app_nil_r;
            split; [reflexivity | discriminate]).
Qed.

(** Every failure inside [move_player] becomes a payload. *)
Lemma move_player_answers (env : Env) (destination : string)
  (tr : list event) :
  exists payload,
    move_player env destination tr
    = (Ok (json_dumps payload), snd (move_player env destination tr)).
Proof.
  unfold move_player.
  destruct (dict_mem (lower destination) detect_map_coordinates) eqn:Hmem.
  - apply dict_mem_true_get in Hmem. destruct Hmem as [p Hp].
    destruct (MoveFacts.notify_frontend_total env (lower destination) tr)
      as [tr' Hrun].
    unfold try_except at 1 2. unfold bind at 1 3. cbn [negb].
    unfold dict_item. rewrite Hp. unfold lift at 1 2. unfold bind.
    rewrite Hrun. cbn [ret snd]. eexists. reflexivity.
  - unfold try_except. cbn [negb ret snd]. eexists. reflexivity.
Qed.

(** X6.  [move_player] never raises, whatever string it is given.  It asks
    the event loop at most once to schedule the notification and posts it
    directly at most once; it does either only for a recognized
    destination, always with the script for the lowercase name, and it
    posts directly only when scheduling raised. *)
Theorem move_player_notifies_at_most_once :
  forall (env : Env) (destination : string) (tr : list event),
    exists (payload : dict pyval) (scheduled posted : bool),
      move_player env destination tr =
        (Ok (json_dumps payload),
         (tr
          ++ (if scheduled
              then [CreateTask execute_js_url
                      (move_script (lower destination))]
              else [])
          ++ (if posted
              then [SessionPost execute_js_url
                      (move_script (lower destination))]
              else []))%list)
      /\ (scheduled = true \/ posted = true ->
          In (lower destination) (dict_keys detect_map_coordinates))
      /\ (posted = true ->
          get_event_loop env <> Ok tt \/ create_task env <> Ok tt).
Proof.
  intros env destination tr. unfold move_player.
  destruct (dict_mem (lower destination) detect_map_coordinates) eqn:Hmem.
  - pose proof Hmem as Hget. apply dict_mem_true_get in Hget.
    destruct Hget as [p Hp].
    destruct (notify_frontend_trace env (lower destination) tr)
      as (scheduled & posted & Hrun & Hposted).
    eexists. exists scheduled, posted.
    unfold try_except at 1. unfold bind at 1. cbn [negb].
    unfold dict_item. rewrite Hp. unfold lift at 1. unfold bind.
    rewrite Hrun. cbn [ret].
    split; [reflexivity|]. split; [|exact Hposted].
    intros _. apply dict_mem_keys. exact Hmem.
  - eexists. exists false, false.
    unfold try_except. cbn [negb ret app]. rewrite app_nil_r.
    split; [reflexivity|]. split.
    + intros [H|H]; discriminate H.
    + discriminate.
Qed.

Lemma move_player_notifies_at_most_once_witness :
  exists (payload : dict pyval) (scheduled posted : bool),
    move_player offline_env "Banco" [] =
      (Ok (json_dumps payload),
       ([]
        ++ (if scheduled
            then [CreateTask execute_js_url (move_script (lower "Banco"))]
            else [])
        ++ (if posted
            then [SessionPost execute_js_url (move_script (lower "Banco"))]
            else []))%list)
    /\ (scheduled = true \/ posted = true ->
        In (lower "Banco") (dict_keys detect_map_coordinates))
    /\ (posted = true ->
        get_event_loop offline_env <> Ok tt
        \/ create_task offline_env <> Ok tt).
Proof.
  exact (move_player_notifies_at_most_once offline_env "Banco" []).
Defined.

(** X7.  POST /api/player/move fails only with status 400, and does so
    exactly when the body has no destination or a falsy one, before any
    call is made.  A string destination gets the payload of [move_player];
    any other truthy value gets a [success = false] payload and no call. *)
Theorem move_endpoint_outcomes :
  forall (env : Env) (request : dict json) (tr : list event),
    (missing (dict_get "destination" request) = true ->
     move_player_endpoint env request tr =
       (Raise (HTTPException 400 "Destination is required"), tr))
    /\ (forall s,
          dict_get "destination" request = Some (JStr s) ->
          s <> EmptyString ->
          exists payload,
            move_player env s tr
            = (Ok (json_dumps payload), snd (move_player env s tr))
            /\ move_player_endpoint env request tr
               = (Ok (Payload payload), snd (move_player env s tr)))
    /\ (forall v,
          dict_get "destination" request = Some v ->
          truthy v = true ->
          (forall s, v <> JStr s) ->
          exists e,
            move_player_endpoint env request tr =
              (Ok (Payload
                     [("success", VJson (JBool false));
                      ("message",
                       VFmt [Lit "Erro ao mover player: "; Str_exn e])]),
               tr)).
Proof.
  intros env request tr. unfold move_player_endpoint. split; [|split].
  - intros Hmiss. rewrite Hmiss. reflexivity.
  - intros s Hget Hne. rewrite Hget. cbn [missing truthy].
    destruct (String.eqb_spec s EmptyString) as [|_]; [contradiction|].
    cbn [negb move_player_value].
    destruct (move_player_answers env s tr) as [payload Hrun].
    exists payload. split; [exact Hrun|].
    unfold bind. rewrite Hrun. reflexivity.
  - intros v Hget Htruthy Hnot. rewrite Hget. cbn [missing].
    rewrite Htruthy. cbn [negb].
    destruct v as [ |b|n|f|s|l|d];
      try (eexists; reflexivity).
    exfalso. exact (Hnot s eq_refl).
Qed.

Lemma move_endpoint_outcomes_witness :
  move_player_endpoint offline_env [("destino", JStr "casa")] [] =
    (Raise (HTTPException 400 "Destination is required"), [])
  /\ exists e,
       move_player_endpoint offline_env [("destination", JInt 5)] [] =
         (Ok (Payload
                [("success", VJson (JBool false));
                 ("message",
                  VFmt [Lit "Erro ao mover player: "; Str_exn e])]),
          []).
Proof.
  split.
  - apply (proj1 (move_endpoint_outcomes offline_env
                    [("destino", JStr "casa")] [])).
    reflexivity.
  - apply (proj2 (proj2 (move_endpoint_outcomes offline_env
                           [("destination", JInt 5)] [])) (JInt 5)).
    + reflexivity.
    + reflexivity.
    + intros s H. discriminate H.
Defined.

End MoveCallsFacts.

(** ** Thought bubbles *)

Module ThoughtFacts.

Lemma string_app_assoc (a b c : string) : (a ++ b) ++ c = a ++ (b ++ c).
Proof.
  induction a as [|ch a IH]; simpl; [reflexivity|]. rewrite IH. reflexivity.
Qed.

Lemma prefix_app (a b : string) : String.prefix a (a ++ b) = true.
Proof.
  induction a as [|ch a IH]; simpl; [destruct b; reflexivity|].
  destruct (ascii_dec ch ch) as [_|Hne]; [exact IH | contradiction].
Qed.

Lemma is_substring_unfold (needle s : string) :
  is_substring needle s =
    if String.prefix needle s then true
    else match s with
         | EmptyString => false
         | String _ rest => is_substring needle rest
         end.
Proof. destruct s; reflexivity. Qed.

Lemma is_substring_here (needle rest : string) :
  is_substring needle (needle ++ rest) = true.
Proof. rewrite is_substring_unfold, prefix_app. reflexivity. Qed.

Lemma is_substring_skip (needle skipped s : string) :
  is_substring needle s = true -> is_substring needle (skipped ++ s) = true.
Proof.
  intros Hs. induction skipped as [|ch a IH]; [exact Hs|].
  change (String ch a ++ s) with (String ch (a ++ s)).
  rewrite is_substring_unfold.
  destruct (String.prefix needle (String ch (a ++ s))); [reflexivity|exact IH].
Qed.

(** The calls [pensamento] makes, and whether its scheduling block
    completes. *)
Lemma pensamento_run (env : Env) (texto : string) (tr : list event) :
  let script := JDict [("script", JStr (pensamento_script texto))] in
  exists (payload : dict pyval) (scheduled posted : bool),
    pensamento env texto tr =
      (Ok (json_dumps payload),
       (tr
        ++ (if scheduled then [CreateTask execute_js_url script] else [])
        ++ (if posted then [SessionPost execute_js_url script] else []))%list).
Proof.
  intros script. unfold pensamento, trigger_thought, try_except, bind, lift,
    emit, ret. fold script.
  destruct (get_event_loop env) as [[]|e1];
    destruct (create_task env) as [[]|e2];
    destruct (asyncio_run env) as [[]|e3];
    destruct (session_post env execute_js_url script) as [[]|e4];
    cbn [fst snd]; eexists.
  all: try (exists true, false; rewrite ?app_nil_r; reflexivity).
  all: try (exists true, true; rewrite <- ?app_assoc; reflexivity).
  all: try (exists false, true; cbn [app]; reflexivity).
  all: try (exists false, false; cbn [app]; rewrite ?app_nil_r; reflexivity).
Qed.

(** X8.  [pensamento] never raises, but unlike [move_player] it can answer
    [success = false]: it answers [success = true], echoing the text, when
    the event loop takes the coroutine or when [asyncio.run] runs it
    (whether or not the post inside goes through), and it answers
    [success = false] with the error when scheduling raised and
    [asyncio.run] raises as well. *)
Theorem pensamento_outcomes :
  forall (env : Env) (texto : string) (tr : list event),
    let shown :=
      json_dumps
        [("success", VJson (JBool true));
         ("message",
          VFmt [Lit "Pensamento '"; Lit texto; Lit "' exibido com sucesso"]);
         ("texto", VJson (JStr texto))] in
    (get_event_loop env = Ok tt -> create_task env = Ok tt ->
     fst (pensamento env texto tr) = Ok shown)
    /\ (asyncio_run env = Ok tt -> fst (pensamento env texto tr) = Ok shown)
    /\ (forall e,
          get_event_loop env <> Ok tt \/ create_task env <> Ok tt ->
          asyncio_run env = Raise e ->
          fst (pensamento env texto tr) =
            Ok (json_dumps
                  [("success", VJson (JBool false));
                   ("message",
                    VFmt [Lit "Erro ao exibir pensamento: "; Str_exn e])])).
Proof.
  intros env texto tr shown. subst shown.
  unfold pensamento, trigger_thought, try_except, bind, lift, emit, ret.
  split; [|split].
  - intros Hloop Htask. rewrite Hloop, Htask. reflexivity.
  - intros Hrun. rewrite Hrun.
    destruct (get_event_loop env) as [[]|e1];
      destruct (create_task env) as [[]|e2];
      destruct (session_post env execute_js_url
                  (JDict [("script", JStr (pensamento_script texto))]))
        as [[]|e4];
      reflexivity.
  - intros e Hsched Hrun. rewrite Hrun.
    destruct (get_event_loop env) as [[]|e1];
      destruct (create_task env) as [[]|e2];
      try reflexivity.
    destruct Hsched as [H|H]; exfalso; apply H; reflexivity.
Qed.

Lemma pensamento_outcomes_witness :
  fst (pensamento offline_env "fome" []) =
    Ok (json_dumps
          [("success", VJson (JBool true));
           ("message",
            VFmt [Lit "Pensamento '"; Lit "fome";
                  Lit "' exibido com sucesso"]);
           ("texto", VJson (JStr "fome"))]).
Proof.
  apply (proj1 (proj2 (pensamento_outcomes offline_env "fome" []))).
  reflexivity.
Defined.

(** X9.  The text of a thought reaches the page's script as it is: every
    call [pensamento] makes carries the one script built from the text, and
    that script contains the text between the quotes of the JavaScript
    string literal with nothing escaped. *)
Theorem thought_text_is_not_escaped :
  forall (env : Env) (texto : string) (tr : list event),
    is_substring ("{ text: '💭 " ++ texto ++ "' }];")
      (pensamento_script texto) = true
    /\ exists added,
         snd (pensamento env texto tr) = (tr ++ added)%list
         /\ forall ev,
              In ev added ->
              is_notification_of
                (JDict [("script", JStr (pensamento_script texto))]) ev.
Proof.
  intros env texto tr. split.
  - unfold pensamento_script.
    assert (Hhead :
              thought_head =
                substring 0 (String.length thought_head - 14) thought_head
                ++ "{ text: '💭 ") by (vm_compute; reflexivity).
    assert (Hmiddle :
              thought_middle =
                "' }];"
                ++ substring 5 (String.length thought_middle - 5) thought_middle)
      by (vm_compute; reflexivity).
    rewrite Hhead, Hmiddle.
    generalize (substring 0 (String.length thought_head - 14) thought_head).
    generalize (substring 5 (String.length thought_middle - 5) thought_middle).
    intros rest skipped.
    rewrite !string_app_assoc. apply is_substring_skip.
    replace ("{ text: '💭 " ++
             texto ++ "' }];" ++ rest ++ texto ++ thought_tail)
      with (("{ text: '💭 " ++ texto ++ "' }];")
            ++ rest ++ texto ++ thought_tail)
      by (rewrite !string_app_assoc; reflexivity).
    apply is_substring_here.
  - destruct (pensamento_run env texto tr)
      as (payload & scheduled & posted & Hrun).
    rewrite Hrun. cbn [snd]. eexists. split; [reflexivity|].
    intros ev Hin. unfold is_notification_of.
    apply in_app_or in Hin.
    destruct scheduled, posted; destruct Hin as [Hin|Hin];
      simpl in Hin; intuition.
Qed.

Lemma thought_text_is_not_escaped_witness :
  is_substring
    ("{ text: '💭 " ++ "oi' }]; alert(1); [{ a: '" ++ "' }];")
    (pensamento_script "oi' }]; alert(1); [{ a: '") = true.
Proof.
  exact (proj1 (thought_text_is_not_escaped offline_env
                  "oi' }]; alert(1); [{ a: '" [])).
Defined.

End ThoughtFacts.

(** ** Generation: every path to an answer *)

Module GenerationPathsFacts.

Lemma handler_payload (env : Env) (e : exn) (tr : list event) :
  exists payload,
    gemini_handler e tr = (Ok (json_dumps payload), tr)
    /\ gemini_payload env payload
    /\ payload <>
       error_payload [Lit "GEMINI_API_KEY não configurada no arquivo .env"] 500.
Proof.
  destruct e; eexists; (split; [reflexivity|]); split;
    try discriminate; constructor.
Qed.

(** One step of the case analysis on the shape of a JSON value. *)
Ltac outcome_step :=
  cbv [ret dict_mem py_len subscript py_index]; cbn;
  repeat match goal with
         | H : dict_get _ _ = _ |- _ => rewrite H
         end;
  first
    [ eexists; split; [reflexivity|]; split; [constructor | discriminate]
    | match goal with
      | |- context [dict_get ?k ?d] =>
          is_var d; destruct (dict_get k d) eqn:?
      | |- context [is_substring ?n ?s] => destruct (is_substring n s)
      | |- context [existsb ?f ?l] => destruct (existsb f l)
      | |- context [match ?x with _ => _ end] => is_var x; destruct x
      | |- context [String.length ?s] => is_var s; destruct s
      | |- context [list_ascii_of_string ?s] => is_var s; destruct s
      | |- context [List.length ?l] => is_var l; destruct l
      end ].

Lemma extract_response_payload (env : Env) (result : json)
  (tr : list event) :
  exists payload,
    try_except (extract_response result) gemini_handler tr
    = (Ok (json_dumps payload), tr)
    /\ gemini_payload env payload
    /\ payload <>
       error_payload [Lit "GEMINI_API_KEY não configurada no arquivo .env"] 500.
Proof.
  unfold extract_response, has_candidates, first_text, try_except, bind, lift,
    gemini_handler, dict_mem.
  repeat outcome_step.
Qed.

Lemma generation_paths (env : Env) (contents_json : string)
  (tr : list event) :
  exists payload tr',
    generate_gemini_content env contents_json tr
    = (Ok (json_dumps payload), tr')
    /\ gemini_payload env payload
    /\ (not_configured (getenv env "GEMINI_API_KEY") = true ->
        payload =
          error_payload
            [Lit "GEMINI_API_KEY não configurada no arquivo .env"] 500
        /\ tr' = tr)
    /\ (not_configured (getenv env "GEMINI_API_KEY") = false ->
        payload <>
          error_payload
            [Lit "GEMINI_API_KEY não configurada no arquivo .env"] 500)
    /\ (tr' = tr
        \/ exists api_key contents,
             getenv env "GEMINI_API_KEY" = Some api_key
             /\ json_loads env contents_json = Ok contents
             /\ tr' = (tr ++ [HttpPost (gemini_url api_key)
                                (JDict [("contents", contents)])])%list)
    /\ (forall api_key contents,
          getenv env "GEMINI_API_KEY" = Some api_key ->
          api_key <> EmptyString ->
          json_loads env contents_json = Ok contents ->
          tr' = (tr ++ [HttpPost (gemini_url api_key)
                          (JDict [("contents", contents)])])%list).
Proof.
  destruct (not_configured (getenv env "GEMINI_API_KEY")) eqn:Hconf.
  - do 2 eexists. split.
    + unfold generate_gemini_content, try_except. rewrite Hconf. reflexivity.
    + split; [constructor|]. split; [auto|]. split; [discriminate|].
      split; [auto|].
      intros api_key contents Hkey Hne _. exfalso.
      rewrite Hkey in Hconf. simpl in Hconf.
      destruct (String.eqb_spec api_key EmptyString); [contradiction|].
      discriminate Hconf.
  - destruct (getenv env "GEMINI_API_KEY") as [api_key|] eqn:Hkey;
      [|discriminate Hconf].
    destruct (json_loads env contents_json) as [contents|e] eqn:Hloads.
    + set (url := gemini_url api_key).
      set (sent := JDict [("contents", contents)]).
      set (tr1 := (tr ++ [HttpPost url sent])%list).
      assert (Hcall : tr1 = tr
                      \/ exists k c,
                           Some api_key = Some k /\ Ok contents = Ok c
                           /\ tr1 = (tr ++ [HttpPost (gemini_url k)
                                              (JDict [("contents", c)])])%list)
        by (right; exists api_key, contents; auto).
      assert (Hsent : forall k c,
                 Some api_key = Some k -> k <> EmptyString ->
                 Ok contents = Ok c ->
                 tr1 = (tr ++ [HttpPost (gemini_url k)
                                 (JDict [("contents", c)])])%list).
      { intros k c Hk _ Hc. injection Hk as <-. injection Hc as <-.
        reflexivity. }
      destruct (requests_post env url sent) as [response|e] eqn:Hpost.
      * destruct (ok response) eqn:Hok.
        -- destruct (json_body response) as [result|e] eqn:Hbody.
           ++ destruct (extract_response_payload env result tr1)
                as (payload & Hrun & Hpay & Hne).
              exists payload, tr1. split.
              ** rewrite <- Hrun.
                 unfold generate_gemini_content, try_except, bind, lift, emit.
                 rewrite Hkey, Hconf, Hloads. cbv beta iota zeta.
                 fold url sent tr1. rewrite Hpost, Hok, Hbody. reflexivity.
              ** split; [exact Hpay|]. split; [discriminate|].
                 split; [intros _; exact Hne|]. split; [exact Hcall | exact Hsent].
           ++ destruct (handler_payload env e tr1)
                as (payload & Hrun & Hpay & Hne).
              exists payload, tr1. split.
              ** rewrite <- Hrun.
                 unfold generate_gemini_content, try_except, bind, lift, emit.
                 rewrite Hkey, Hconf, Hloads. cbv beta iota zeta.
                 fold url sent tr1. rewrite Hpost, Hok, Hbody. reflexivity.
              ** split; [exact Hpay|]. split; [discriminate|].
                 split; [intros _; exact Hne|]. split; [exact Hcall | exact Hsent].
        -- do 2 eexists. split.
           ++ unfold generate_gemini_content, try_except, bind, lift, emit.
              rewrite Hkey, Hconf, Hloads. cbv beta iota zeta.
              fold url sent tr1. rewrite Hpost, Hok. reflexivity.
           ++ split; [exact (UpstreamRefused env url sent response Hpost Hok)|].
              split; [discriminate|]. split; [discriminate|].
              split; [exact Hcall | exact Hsent].
      * destruct (handler_payload env e tr1)
          as (payload & Hrun & Hpay & Hne).
        exists payload, tr1. split.
        -- rewrite <- Hrun.
           unfold generate_gemini_content, try_except, bind, lift, emit.
           rewrite Hkey, Hconf, Hloads. cbv beta iota zeta.
           fold url sent tr1. rewrite Hpost. reflexivity.
        -- split; [exact Hpay|]. split; [discriminate|].
           split; [intros _; exact Hne|]. split; [exact Hcall | exact Hsent].
    + destruct (handler_payload env e tr) as (payload & Hrun & Hpay & Hne).
      exists payload, tr. split.
      * rewrite <- Hrun.
        unfold generate_gemini_content, try_except, bind, lift.
        rewrite Hkey, Hconf, Hloads. reflexivity.
      * split; [exact Hpay|]. split; [discriminate|].
        split; [intros _; exact Hne|]. split; [auto|].
        intros k c _ _ Hc. discriminate Hc.
Qed.

(** X10.  [generate_gemini_content] never raises and makes at most one
    upstream call, with [{"contents": parsed input}] as its body and the
    key in its URL.  What it returns is either [{"response": text}] or an
    error whose status code is 400, 408, 500 or the status of an upstream
    answer that was not [ok]. *)
Theorem generation_always_answers :
  forall (env : Env) (contents_json : string) (tr : list event),
    exists payload,
      fst (generate_gemini_content env contents_json tr)
      = Ok (json_dumps payload)
      /\ ((exists ai_response, payload = [("response", VJson ai_response)])
          \/ exists message code,
               payload = error_payload message code
               /\ (code = 400%Z \/ code = 408%Z \/ code = 500%Z
                   \/ exists url sent response,
                        requests_post env url sent = Ok response
                        /\ ok response = false
                        /\ code = status_code response))
      /\ (snd (generate_gemini_content env contents_json tr) = tr
          \/ exists api_key contents,
               getenv env "GEMINI_API_KEY" = Some api_key
               /\ json_loads env contents_json = Ok contents
               /\ snd (generate_gemini_content env contents_json tr)
                  = (tr ++ [HttpPost (gemini_url api_key)
                              (JDict [("contents", contents)])])%list).
Proof.
  intros env contents_json tr.
  destruct (generation_paths env contents_json tr)
    as (payload & tr' & Hrun & Hpay & _ & _ & Hcall & _).
  exists payload. rewrite Hrun. cbn [fst snd].
  split; [reflexivity|]. split; [|exact Hcall].
  destruct Hpay as [ |url sent response Hpost Hok|ai_response| | | |e|e].
  - right. do 2 eexists. split; [reflexivity | auto].
  - right. do 2 eexists. split; [reflexivity|].
    do 3 right. exists url, sent, response. auto.
  - left. eauto.
  - right. do 2 eexists. split; [reflexivity | auto].
  - right. do 2 eexists. split; [reflexivity | auto].
  - right. do 2 eexists. split; [reflexivity | auto].
  - right. do 2 eexists. split; [reflexivity | auto].
  - right. do 2 eexists. split; [reflexivity | auto].
Qed.


(** X12.  POST /api/gemini/generate refuses a body without contents (or
    with empty contents) with status 400 before anything is called.
    Otherwise, with a credential configured and [json.loads] undoing
    [json.dumps] on the contents, it never fails and sends the request's
    contents upstream unchanged, in exactly one call. *)
Theorem gemini_endpoint_forwards_contents :
  forall (dumps : json -> string) (env : Env) (request : dict json)
         (tr : list event),
    (missing (dict_get "contents" request) = true ->
     gemini_endpoint dumps env request tr =
       (Raise (HTTPException 400 "Contents are required"), tr))
    /\ (forall contents api_key,
          dict_get "contents" request = Some contents ->
          truthy contents = true ->
          getenv env "GEMINI_API_KEY" = Some api_key ->
          api_key <> EmptyString ->
          json_loads env (dumps contents) = Ok contents ->
          exists payload,
            gemini_endpoint dumps env request tr =
              (Ok (Payload payload),
               (tr ++ [HttpPost (gemini_url api_key)
                         (JDict [("contents", contents)])])%list)).
Proof.
  intros dumps env request tr. unfold gemini_endpoint. split.
  - intros Hmiss. rewrite Hmiss. reflexivity.
  - intros contents api_key Hget Htruthy Hkey Hne Hloads.
    rewrite Hget. cbn [missing]. rewrite Htruthy. cbn [negb].
    destruct (generation_paths env (dumps contents) tr)
      as (payload & tr' & Hrun & _ & _ & _ & _ & Hsent).
    exists payload. unfold bind. rewrite Hrun.
    rewrite (Hsent api_key contents Hkey Hne Hloads). reflexivity.
Qed.

Lemma gemini_endpoint_forwards_contents_witness :
  exists payload,
    gemini_endpoint (fun _ => "[...]") (upstream_env (Ok answer_response))
      [("contents", one_turn)] [] =
      (Ok (Payload payload),
       ([] ++ [HttpPost (gemini_url "k") (JDict [("contents", one_turn)])])%list).
Proof.
  apply (proj2 (gemini_endpoint_forwards_contents (fun _ => "[...]")
                  (upstream_env (Ok answer_response))
                  [("contents", one_turn)] []) one_turn "k");
    try reflexivity.
  discriminate.
Defined.

End GenerationPathsFacts.

(** ** Status queries against the cache *)

Module StatusPathsFacts.

(** X13.  What the page last posted is what a status query falls back to:
    after an update carrying ["player_status": P], a query whose fetch
    raises answers [P] with the error, and a query whose fetch is answered
    with a status other than 200 answers [P] alone. *)
Theorem status_query_falls_back_to_last_update :
  forall (env : Env) (request : dict json) (P : json) (st : State)
         (tr : list event),
    dict_get "player_status" request = Some P ->
    let cached := last_player_status (snd (update_player_status request st)) in
    (forall e,
       requests_get env status_live_url = Raise e ->
       fst (get_player_status env cached tr) =
         Ok (json_dumps [("player_status", VJson P);
                         ("error", VFmt [Str_exn e])]))
    /\ (forall response,
          requests_get env status_live_url = Ok response ->
          status_code response <> 200%Z ->
          fst (get_player_status env cached tr) =
            Ok (json_dumps [("player_status", VJson P)])).
Proof.
  intros env request P st tr Hget cached.
  assert (Hcached : cached = P).
  { unfold cached, update_player_status.
    assert (Hmem : dict_mem "player_status" request = true)
      by (apply dict_mem_true_get; eauto).
    rewrite Hmem, Hget. reflexivity. }
  rewrite Hcached.
  unfold get_player_status, try_except, bind, emit, lift, ret.
  split.
  - intros e He. rewrite He. reflexivity.
  - intros response Hresp Hcode. rewrite Hresp.
    destruct (Z.eqb_spec (status_code response) 200); [contradiction|].
    reflexivity.
Qed.

Lemma status_query_falls_back_to_last_update_witness :
  fst (get_player_status offline_env
         (last_player_status
            (snd (update_player_status [("player_status", test_status)]
                    initial_state))) [])
  = Ok (json_dumps
          [("player_status", VJson test_status);
           ("error", VFmt [Str_exn (RequestException "connection refused")])]).
Proof.
  apply (proj1 (status_query_falls_back_to_last_update offline_env
                  [("player_status", test_status)] test_status initial_state
                  [] eq_refl)).
  reflexivity.
Defined.



End StatusPathsFacts.

(** ** Order of the script queue *)

Module QueueOrderFacts.

(** X15.  The queue is first in, first out.  Two scripts accepted one after
    the other come out of the next poll in that order, after whatever was
    queued before them, each provided it is less than 30 seconds old. *)
Theorem drain_keeps_queueing_order :
  forall (request1 request2 : dict json) (s1 s2 : json) (t1 t2 now : float)
         (st : State),
    dict_get "script" request1 = Some s1 -> truthy s1 = true ->
    dict_get "script" request2 = Some s2 -> truthy s2 = true ->
    let st1 := snd (execute_js_endpoint request1 t1 st) in
    let st2 := snd (execute_js_endpoint request2 t2 st1) in
    fst (get_js_commands now st2) =
      (fst (get_js_commands now st)
       ++ filter (fresh now)
            [{| script := s1; timestamp := t1 |};
             {| script := s2; timestamp := t2 |}])%list.
Proof.
  intros request1 request2 s1 s2 t1 t2 now st Hget1 Htruthy1 Hget2 Htruthy2.
  unfold execute_js_endpoint, get_js_commands.
  rewrite Hget1, Htruthy1. cbn [snd]. rewrite Hget2, Htruthy2.
  cbn [fst snd js_command_queue].
  rewrite <- app_assoc, filter_app. reflexivity.
Qed.

Lemma drain_keeps_queueing_order_witness :
  fst (get_js_commands 1700000020%float
         (snd (execute_js_endpoint [("script", JStr "b()")] 1700000010%float
                 (snd (execute_js_endpoint [("script", JStr "a()")] t0
                         initial_state)))))
  = (fst (get_js_commands 1700000020%float initial_state)
     ++ filter (fresh 1700000020%float)
          [{| script := JStr "a()"; timestamp := t0 |};
           {| script := JStr "b()"; timestamp := 1700000010%float |}])%list.
Proof.
  apply (drain_keeps_queueing_order [("script", JStr "a()")]
           [("script", JStr "b()")]); reflexivity.
Defined.

End QueueOrderFacts.
